(** * Outline extraction and persona-driven ranking: a shallow embedding

    This development embeds the heading segmenter and title resolver of
    [structure_extractor.py] (class [StructureExtractor], kept in the
    sources as [tempCodeRunnerFile.py]) and the section
    expansion, relevance scorer and cross-document ranker of
    [persona_analyzer.py] (class [PersonaAnalyzer]), and proves properties
    of them.

    Modelling conventions.
    - Text is ASCII text: a Python [str] is a [string] whose characters
      have codes below 128; the character tests below treat larger codes
      as caseless symbols that are neither blank nor word characters.
    - A Python [float] is an IEEE 754 binary64 number, [spec_float] with
      precision 53 and maximal exponent 1024; every operation rounds to
      nearest, ties to even.
    - The PDF loader ([pdf_processor.py]) is an external collaborator: it is
      an interface ([PDFProcessor]) over an abstract processor state, and
      every call threads that state and may raise. *)

From Stdlib Require Import ZArith Ascii String List Bool Lia Permutation Sorted.
From Stdlib Require Import Floats.SpecFloat.
From stdpp Require Import base gmap strings list.

Local Open Scope string_scope.
Local Open Scope list_scope.
Local Open Scope nat_scope.

(** ** Python strings *)

Module Py.

Definition code (c : ascii) : nat := nat_of_ascii c.

Definition in_range (lo hi : nat) (c : ascii) : bool :=
  (lo <=? code c) && (code c <=? hi).

(** [str.isspace] on one character: TAB..CR, FS..US and the space. *)
Definition isspace (c : ascii) : bool := in_range 9 13 c || in_range 28 32 c.

Definition is_upper (c : ascii) : bool := in_range 65 90 c.
Definition is_lower (c : ascii) : bool := in_range 97 122 c.
Definition is_alpha (c : ascii) : bool := is_upper c || is_lower c.
Definition is_digit (c : ascii) : bool := in_range 48 57 c.

(** [\w]: letters, digits and the underscore. *)
Definition is_word (c : ascii) : bool := is_alpha c || is_digit c || (code c =? 95).

Definition lower_char (c : ascii) : ascii :=
  if is_upper c then ascii_of_nat (code c + 32) else c.

(** [s.lower()] *)
Fixpoint lower (s : string) : string :=
  match s with
  | EmptyString => EmptyString
  | String c s' => String (lower_char c) (lower s')
  end.

(** [len(s)] *)
Definition len (s : string) : nat := String.length s.

(** [s.lstrip(chars)], with the stripped characters given as a test. *)
Fixpoint lstrip_by (p : ascii -> bool) (s : string) : string :=
  match s with
  | EmptyString => EmptyString
  | String c s' => if p c then lstrip_by p s' else s
  end.

(** [s.rstrip(chars)] *)
Fixpoint rstrip_by (p : ascii -> bool) (s : string) : string :=
  match s with
  | EmptyString => EmptyString
  | String c s' =>
      match rstrip_by p s' with
      | EmptyString => if p c then EmptyString else String c EmptyString
      | r => String c r
      end
  end.

(** [s.strip()] *)
Definition strip (s : string) : string := lstrip_by isspace (rstrip_by isspace s).

(** [s.rstrip(":")] *)
Definition rstrip_colon (s : string) : string :=
  rstrip_by (fun c => Ascii.eqb c ":") s.

(** [s.startswith(p)] *)
Fixpoint startswith (p s : string) : bool :=
  match p, s with
  | EmptyString, _ => true
  | String a p', String b s' => Ascii.eqb a b && startswith p' s'
  | String _ _, EmptyString => false
  end.

(** [s.endswith(p)] for a one-character [p]. *)
Fixpoint endswith_char (c : ascii) (s : string) : bool :=
  match s with
  | EmptyString => false
  | String a EmptyString => Ascii.eqb a c
  | String _ s' => endswith_char c s'
  end.

(** [needle in hay] *)
Fixpoint contains (needle hay : string) : bool :=
  startswith needle hay ||
  match hay with
  | EmptyString => false
  | String _ hay' => contains needle hay'
  end.

(** [any(w in s for w in ws)] *)
Definition contains_any (ws : list string) (s : string) : bool :=
  existsb (fun w => contains w s) ws.

(** [s.split(sep)] for a one-character separator: empty fields are kept. *)
Fixpoint split_on (sep : ascii) (s : string) : list string :=
  match s with
  | EmptyString => [EmptyString]
  | String c s' =>
      if Ascii.eqb c sep then EmptyString :: split_on sep s'
      else match split_on sep s' with
           | w :: ws => String c w :: ws
           | [] => [String c EmptyString]
           end
  end.

(** [s.split('\n')] *)
Definition newline : ascii := ascii_of_nat 10.
Definition split_lines (s : string) : list string := split_on newline s.

(** [s.split()]: the maximal runs of non-blank characters. *)
Fixpoint split_ws_aux (s : string) : list string :=
  match s with
  | EmptyString => [EmptyString]
  | String c s' =>
      if isspace c then EmptyString :: split_ws_aux s'
      else match split_ws_aux s' with
           | w :: ws => String c w :: ws
           | [] => [String c EmptyString]
           end
  end.

Definition nonempty (s : string) : bool :=
  match s with EmptyString => false | _ => true end.

Definition split_ws (s : string) : list string :=
  List.filter nonempty (split_ws_aux s).

(** [sep.join(ws)] *)
Fixpoint join (sep : string) (ws : list string) : string :=
  match ws with
  | [] => EmptyString
  | [w] => w
  | w :: ws' => w +:+ sep +:+ join sep ws'
  end.

Fixpoint existsb_str (p : ascii -> bool) (s : string) : bool :=
  match s with
  | EmptyString => false
  | String c s' => p c || existsb_str p s'
  end.

(** [s.isupper()]: some cased character, and no lowercase one. *)
Definition isupper (s : string) : bool :=
  existsb_str is_upper s && negb (existsb_str is_lower s).

End Py.

(** ** Regular expressions, with Python's backtracking order *)

Module Re.

Inductive regex : Type :=
| Eps
| Chr (c : ascii)
| Cls (p : ascii -> bool)
| Seq (r1 r2 : regex)
| Alt (r1 r2 : regex)
| Star (r : regex)
| Bol
| Eol
| WordB.

(** A position in the subject: the character just before it, if any, and
    the text that remains. *)
Definition cursor : Type := option ascii * string.

Definition word_before (k : cursor) : bool :=
  match fst k with Some c => Py.is_word c | None => false end.

Definition word_after (k : cursor) : bool :=
  match snd k with String c _ => Py.is_word c | EmptyString => false end.

Definition at_eol (k : cursor) : bool :=
  match snd k with
  | EmptyString => true
  | String c EmptyString => Ascii.eqb c Py.newline
  | _ => false
  end.

Definition step_if (p : ascii -> bool) (k : cursor) : list cursor :=
  match snd k with
  | String c s' => if p c then [(Some c, s')] else []
  | EmptyString => []
  end.

Definition shorter (k' k : cursor) : bool :=
  String.length (snd k') <? String.length (snd k).

(** [ends r k]: the positions at which a match of [r] that starts at [k]
    can end, in the order in which a backtracking matcher tries them
    (alternatives left to right, repetitions greedy). *)
Fixpoint ends (r : regex) (k : cursor) : list cursor :=
  match r with
  | Eps => [k]
  | Chr c => step_if (Ascii.eqb c) k
  | Cls p => step_if p k
  | Seq r1 r2 => flat_map (ends r2) (ends r1 k)
  | Alt r1 r2 => ends r1 k ++ ends r2 k
  | Star r' =>
      (fix loop (fuel : nat) (k : cursor) {struct fuel} : list cursor :=
         match fuel with
         | O => [k]
         | S fuel' =>
             flat_map (fun k' => if shorter k' k then loop fuel' k' else [])
                      (ends r' k) ++ [k]
         end) (String.length (snd k)) k
  | Bol => match fst k with None => [k] | Some _ => [] end
  | Eol => if at_eol k then [k] else []
  | WordB => if xorb (word_before k) (word_after k) then [k] else []
  end.

Definition Plus (r : regex) : regex := Seq r (Star r).
Definition Opt (r : regex) : regex := Alt r Eps.

Fixpoint Str (s : string) : regex :=
  match s with
  | EmptyString => Eps
  | String c s' => Seq (Chr c) (Str s')
  end.

Fixpoint Alts (rs : list regex) : regex :=
  match rs with
  | [] => Cls (fun _ => false)
  | [r] => r
  | r :: rs' => Alt r (Alts rs')
  end.

(** [re.match(r, s)] succeeds. *)
Definition matches (r : regex) (s : string) : bool :=
  match ends r (None, s) with [] => false | _ :: _ => true end.

(** The text consumed between two positions of one subject. *)
Definition consumed (k k' : cursor) : string :=
  String.substring 0 (String.length (snd k) - String.length (snd k')) (snd k).

(** [re.findall(r, s)] for a pattern without groups that matches no empty
    text: scan left to right, take the first match at the leftmost position
    that has one, and resume where it ended. *)
Fixpoint findall_from (fuel : nat) (r : regex) (k : cursor) : list string :=
  match fuel with
  | O => []
  | S fuel' =>
      match List.filter (fun k' => shorter k' k) (ends r k) with
      | k' :: _ => consumed k k' :: findall_from fuel' r k'
      | [] =>
          match snd k with
          | EmptyString => []
          | String c s' => findall_from fuel' r (Some c, s')
          end
      end
  end.

Definition findall (r : regex) (s : string) : list string :=
  findall_from (S (String.length s)) r (None, s).

End Re.

(** ** Python floats: IEEE 754 binary64 *)

Module F64.

Definition prec : Z := 53.
Definition emax : Z := 1024.

Definition float : Type := spec_float.

Definition add : float -> float -> float := SFadd prec emax.
Definition mul : float -> float -> float := SFmul prec emax.
Definition ltb : float -> float -> bool := SFltb.
Definition leb : float -> float -> bool := SFleb.

(** [float(n)] *)
Definition of_int (n : Z) : float := binary_normalize prec emax n 0 false.

(** An integer as an unrounded significand with exponent 0. *)
Definition exact_int (n : Z) : float :=
  match n with
  | Z0 => S754_zero false
  | Zpos p => S754_finite false p 0
  | Zneg p => S754_finite true p 0
  end.

(** [a / b] on two integers: the correctly rounded quotient.  The caller
    makes sure that [b] is not zero. *)
Definition truediv (a b : Z) : float :=
  SFdiv prec emax (exact_int a) (exact_int b).

(** The literal [n/d] written in decimal, e.g. [0.05] is [decimal 5 100]. *)
Definition decimal (n d : Z) : float := truediv n d.

Definition zero : float := S754_zero false.
Definition one : float := Eval vm_compute in of_int 1.
Definition c0_6 : float := Eval vm_compute in decimal 6 10.
Definition c0_4 : float := Eval vm_compute in decimal 4 10.
Definition c0_3 : float := Eval vm_compute in decimal 3 10.
Definition c0_1 : float := Eval vm_compute in decimal 1 10.
Definition c0_05 : float := Eval vm_compute in decimal 5 100.

(** [f] is a positive double [m * 2^e] with a full significand and
    [|m * 2^e - n/d| <= 2^e / 2], stated on integers for [e < 0]. *)
Definition nearest (n d : Z) (f : float) : Prop :=
  match f with
  | S754_finite false m e =>
      (Z.log2 (Z.pos m) = prec - 1 /\ e < 0 /\
       2 * Z.abs (d * Z.pos m - n * 2 ^ (- e)) <= d)%Z
  | _ => False
  end.

(** [min(a, b)]: the first argument unless the second is smaller. *)
Definition min (a b : float) : float := if ltb b a then b else a.

(** Zero, a positive finite number or plus infinity. *)
Definition nonneg (x : float) : Prop :=
  match x with
  | S754_zero false | S754_infinity false | S754_finite false _ _ => True
  | _ => False
  end.

(** [0.0 <= x <= 1.0] *)
Definition in_unit (x : float) : Prop := leb zero x = true /\ leb x one = true.

End F64.

(** ** Stable sorting, as [list.sort(key=..., reverse=True)] does it

    The built-in sort promises a rearrangement that is sorted and keeps
    elements with equal keys in their original order; there is one such
    rearrangement only, and an insertion sort computes it. *)

Section Sort.
Context {A K : Type}.
Variable ltb : K -> K -> bool.
Variable key : A -> K.

(** [x] stood before every element of [l] in the unsorted list, so it
    goes in front of the first element whose key is not larger. *)
Fixpoint insert_desc (x : A) (l : list A) : list A :=
  match l with
  | [] => [x]
  | y :: l' => if ltb (key x) (key y) then y :: insert_desc x l' else x :: l
  end.

Fixpoint sort_desc (l : list A) : list A :=
  match l with
  | [] => []
  | x :: l' => insert_desc x (sort_desc l')
  end.
End Sort.

(** ** Calls that thread the processor state and may raise *)

Inductive result (A : Type) : Type :=
| Ok (a : A)
| Raise (e : string).
Arguments Ok {A} a.
Arguments Raise {A} e.

Definition M (St A : Type) : Type := St -> result A * St.

Definition ret {St A : Type} (a : A) : M St A := fun st => (Ok a, st).

Definition bind {St A B : Type} (m : M St A) (f : A -> M St B) : M St B :=
  fun st =>
    match m st with
    | (Ok a, st') => f a st'
    | (Raise e, st') => (Raise e, st')
    end.

(** [try: body except Exception: handler] *)
Definition try_except {St A : Type} (body : M St A) (handler : string -> M St A) : M St A :=
  fun st =>
    match body st with
    | (Ok a, st') => (Ok a, st')
    | (Raise e, st') => handler e st'
    end.

#[global] Instance M_ret {St : Type} : MRet (M St) := fun A => @ret St A.
#[global] Instance M_bind {St : Type} : MBind (M St) := fun A B f m => bind m f.

Fixpoint mapM {St A B : Type} (f : A -> M St B) (l : list A) : M St (list B) :=
  match l with
  | [] => mret []
  | x :: l' => y ← f x; ys ← mapM f l'; mret (y :: ys)
  end.

(** ** The data that flows through the pipelines *)

(** One heading candidate of [extract_sections_by_formatting]. *)
Record RawSection : Type := { sec_text : string; sec_page : Z }.

(** One outline entry [{"level", "text", "page"}]. *)
Record Heading : Type := { h_level : string; h_text : string; h_page : Z }.

(** The result of [extract_structure]. *)
Record Structure : Type :=
  { title : string; outline : list Heading; error : option string }.

(** A candidate copied by [_enrich_sections]; the ["content"] key is set
    only when the candidate's page exists. *)
Record Enriched : Type :=
  { es_text : string; es_page : Z; es_content : option string }.

Record Content : Type :=
  { full_text : string; sections : list Enriched; page_texts : gmap Z string }.

Record Document : Type :=
  { filename : string; doc_title : string; doc_outline : list Heading;
    content : Content }.

(** A field that holds a float first and an integer later. *)
Inductive pyval : Type :=
| PyFloat (f : F64.float)
| PyInt (n : Z).

Record Ranked : Type :=
  { document : string; rk_page : Z; section_title : string;
    importance_rank : pyval }.

Record Subsection : Type :=
  { sub_document : string; sub_page : Z; sub_section_title : string;
    refined_text : string; relevance_score : pyval }.

Record Metadata : Type :=
  { documents : list string; md_persona : string; md_job_to_be_done : string;
    timestamp : string }.

Record Analysis : Type :=
  { metadata : Metadata; extracted_sections : list Ranked;
    subsection_analysis : list Subsection }.

(** ** The loader interface

    [PDFProcessor St] lists the calls the pipelines make on a processor
    whose internal state has type [St]. *)
Record PDFProcessor (St : Type) : Type :=
  { load_pdf : string -> M St bool;
    extract_sections_by_formatting : M St (list RawSection);
    extract_page_text : Z -> M St string;
    extract_all_text : M St string;
    page_count : St -> Z;
    (** the ["title"] entry of [get_document_info()], if the key is there;
        the entry is taken to be a string *)
    get_document_info : M St (option string);
    (** [(text, score)] pairs, best first *)
    find_title_candidates : M St (list (string * Z));
    close : M St unit }.
Arguments load_pdf {St} _ _ _.
Arguments extract_sections_by_formatting {St} _ _.
Arguments extract_page_text {St} _ _ _.
Arguments extract_all_text {St} _ _.
Arguments page_count {St} _ _.
Arguments get_document_info {St} _ _.
Arguments find_title_candidates {St} _ _.
Arguments close {St} _ _.

(** [Path.name] of the POSIX path written [p]: its last component, where
    an empty component and [.] do not count as components (so a slash at
    the end is ignored); the empty string when no component is left. *)
Definition path_name (p : string) : string :=
  List.last
    (List.filter (fun c => negb (String.eqb c "" || String.eqb c "."))
       (Py.split_on "/" p))
    "".

(** ** [StructureExtractor] *)

Module StructureExtractor.

Import Re.

Definition digit : regex := Cls Py.is_digit.
Definition upper : regex := Cls Py.is_upper.

(** [^(page|figure|table|ref|www\.|http|\d{1,2} [A-Z]{3,})] *)
Definition noise_re : regex :=
  Seq Bol
    (Alts [Str "page"; Str "figure"; Str "table"; Str "ref"; Str "www."; Str "http";
           Seq digit (Seq (Opt digit)
             (Seq (Chr " ") (Seq upper (Seq upper (Seq upper (Star upper))))))]).

(** [^(page|abstract|introduction|table of contents|www\.|http)] *)
Definition title_skip_re : regex :=
  Seq Bol
    (Alts [Str "page"; Str "abstract"; Str "introduction"; Str "table of contents";
           Str "www."; Str "http"]).

Definition high : list string :=
  ["revision history"; "table of contents"; "acknowledgements"; "introduction";
   "overview"; "syllabus"].

(** [text.endswith(":") and len(text.split()) <= 8] *)
Definition is_label (text : string) : bool :=
  Py.endswith_char ":" text && (length (Py.split_ws text) <=? 8).

Definition _calculate_importance (text : string) : Z :=
  let text_lower := Py.lower text in
  if Py.contains_any high text_lower then 2%Z
  else if is_label text then 1%Z
  else if Py.isupper text && (5 <? Py.len text) && (Py.len text <? 60) then 1%Z
  else 0%Z.

Definition _determine_level (text : string) : string :=
  let text_lower := Py.lower text in
  if Py.contains_any ["overview of"; "introduction to"; "references"] text_lower then "H1"
  else if is_label text then "H2"
  else "H2".

(** The loop of [_refine_sections], with its two accumulators. *)
Fixpoint refine_loop (sections : list RawSection) (seen : gset string)
    (cleaned : list Heading) : list Heading :=
  match sections with
  | [] => cleaned
  | sec :: rest =>
      let text := Py.strip (sec_text sec) in
      if bool_decide (text ∈ seen) || negb ((3 <=? Py.len text) && (Py.len text <=? 150))
      then refine_loop rest seen cleaned
      else if matches noise_re (Py.lower text)
      then refine_loop rest seen cleaned
      else
        let importance := _calculate_importance text in
        if (importance =? 0)%Z then refine_loop rest seen cleaned
        else
          let level := _determine_level text in
          refine_loop rest ({[text]} ∪ seen)
            (cleaned ++ [{| h_level := level; h_text := text; h_page := sec_page sec |}])
  end.

Definition _refine_sections (sections : list RawSection) : list Heading :=
  refine_loop sections ∅ [].

Definition _fallback_extract_labels (text : string) : list Heading :=
  let lines := Py.split_lines text in
  flat_map
    (fun line =>
       let line := Py.strip line in
       if is_label line
       then [{| h_level := "H2"; h_text := Py.rstrip_colon line; h_page := 1 |}]
       else [])
    lines.

(** The lines [_extract_title_from_text] looks at. *)
Definition title_lines (text : string) : list string :=
  take 15
    (List.filter (fun l => (5 <? Py.len l) && (Py.len l <? 200))
       (map Py.strip (Py.split_lines text))).

Definition promo : list string := ["challenge"; "connecting"; "dots"; "hackathon"].

Definition title_score (i : nat) (line : string) : nat :=
  (if Py.contains_any promo (Py.lower line) then 3 else 0)
  + (if i <? 5 then 2 else 0)
  + (if (10 <=? Py.len line) && (Py.len line <=? 100) then 1 else 0).

(** The [(line, score)] pairs collected by the scan, in line order. *)
Definition title_candidates (text : string) : list (string * nat) :=
  List.concat
    (imap (fun i line =>
             if matches title_skip_re (Py.lower line) then []
             else [(line, title_score i line)])
          (title_lines text)).

Definition _extract_title_from_text (text : string) : string :=
  match sort_desc Nat.ltb snd (title_candidates text) with
  | c :: _ => fst c
  | [] => ""
  end.

Section WithProcessor.
Context {St : Type}.
Variable processor : PDFProcessor St.

Definition _extract_title (outline : list Heading) : M St string :=
  doc_info ← get_document_info processor;
  let metadata_title := Py.strip (default "" doc_info) in
  if Py.nonempty metadata_title && (3 <? Py.len metadata_title)
  then mret metadata_title
  else
    candidates ← find_title_candidates processor;
    match candidates with
    | _ :: _ => mret (Py.join "  " (map fst (take 2 candidates)))
    | [] =>
        first_page_text ← extract_page_text processor 0%Z;
        let title_from_text := _extract_title_from_text first_page_text in
        if Py.nonempty title_from_text then mret title_from_text
        else
          match outline with
          | h :: _ => mret (h_text h)
          | [] => mret "Untitled Document"
          end
    end.

Definition extract_structure (pdf_path : string) : M St Structure :=
  ok ← load_pdf processor pdf_path;
  if negb ok
  then mret {| title := "Error"; outline := []; error := Some "Failed to load PDF" |}
  else
    sections ← extract_sections_by_formatting processor;
    let refined := _refine_sections sections in
    let outline :=
      map (fun s => {| h_level := h_level s; h_text := h_text s; h_page := h_page s |})
          refined in
    outline ←
      match outline with
      | [] =>
          first_page_text ← extract_page_text processor 0%Z;
          mret (_fallback_extract_labels first_page_text)
      | _ :: _ => mret outline
      end;
    title ← _extract_title outline;
    close processor;;
    mret {| title := title; outline := outline; error := None |}.
End WithProcessor.

End StructureExtractor.

(** ** [PersonaAnalyzer] *)

Module PersonaAnalyzer.

Import Re.

Definition digit : regex := Cls Py.is_digit.
Definition upper : regex := Cls Py.is_upper.
Definition lowerc : regex := Cls Py.is_lower.
Definition alpha : regex := Cls Py.is_alpha.
Definition space : regex := Cls Py.isspace.
Definition upper_or_space : regex := Cls (fun c => Py.is_upper c || Py.isspace c).

(** [^\d+\.?\s+[A-Z]] *)
Definition numbered_re : regex :=
  Seq Bol (Seq (Plus digit) (Seq (Opt (Chr ".")) (Seq (Plus space) upper))).

(** [^[A-Z][A-Z\s]+$] *)
Definition allcaps_re : regex :=
  Seq Bol (Seq upper (Seq (Plus upper_or_space) Eol)).

(** [^[A-Z][a-z]+(?:\s+[A-Z][a-z]+)*$] *)
Definition titlecase_re : regex :=
  Seq Bol (Seq upper (Seq (Plus lowerc)
    (Seq (Star (Seq (Plus space) (Seq upper (Plus lowerc)))) Eol))).

Definition heading_patterns : list regex := [numbered_re; allcaps_re; titlecase_re].

Definition _looks_like_heading (text : string) : bool :=
  if (Py.len text <? 3) || (150 <? Py.len text) then false
  else existsb (fun pattern => matches pattern text) heading_patterns.

(** The first index whose element passes the test. *)
Fixpoint find_index {A : Type} (p : A -> bool) (l : list A) : option nat :=
  match l with
  | [] => None
  | x :: l' => if p x then Some 0 else S <$> find_index p l'
  end.

(** The test of the loop that looks for the end of a section. *)
Definition ends_section (raw_line : string) : bool :=
  let line := Py.strip raw_line in
  (3 <? Py.len line) && _looks_like_heading line.

Definition _extract_section_content (page_text section_title : string)
    (section_index : nat) (all_sections : list RawSection) : string :=
  let lines := Py.split_lines page_text in
  match find_index (fun line => Py.contains (Py.lower section_title) (Py.lower line)) lines with
  | None => ""
  | Some start_line =>
      let end_line :=
        match find_index ends_section (drop (S start_line) lines) with
        | Some j => S start_line + j
        | None => length lines
        end in
      let content_lines := take (end_line - S start_line) (drop (S start_line) lines) in
      Py.strip (Py.join (String Py.newline "") content_lines)
  end.

(** [\b[a-zA-Z]{3,}\b] *)
Definition keyword_re : regex :=
  Seq WordB (Seq alpha (Seq alpha (Seq alpha (Seq (Star alpha) WordB)))).

Definition stop_words : gset string :=
  list_to_set
    ["the"; "and"; "for"; "are"; "but"; "not"; "you"; "all"; "can"; "had"; "her"; "was";
     "one"; "our"; "out"; "day"; "get"; "has"; "him"; "his"; "how"; "man"; "new"; "now";
     "old"; "see"; "two"; "way"; "who"; "boy"; "did"; "its"; "let"; "put"; "say"; "she";
     "too"; "use"; "with"; "have"; "this"; "will"; "your"; "from"; "they"; "know"; "want";
     "been"; "good"; "much"; "some"; "time"; "very"; "when"; "come"; "here"; "just"; "like";
     "long"; "make"; "many"; "over"; "such"; "take"; "than"; "them"; "well"; "were"].

Definition _extract_keywords (text : string) : gset string :=
  let words := findall keyword_re (Py.lower text) in
  list_to_set (List.filter (fun word => negb (bool_decide (word ∈ stop_words))) words).

(** [sum(1 for term in terms if term in text)] *)
Definition count_terms (terms : list string) (text : string) : Z :=
  Z.of_nat (length (List.filter (fun term => Py.contains term text) terms)).

Definition research_terms : list string :=
  ["methodology"; "analysis"; "results"; "conclusion"; "abstract";
   "literature"; "experiment"; "data"; "findings"; "hypothesis"].

Definition business_terms : list string :=
  ["revenue"; "profit"; "growth"; "market"; "financial"; "strategy";
   "competitive"; "performance"; "roi"; "analysis"].

Definition educational_terms : list string :=
  ["concept"; "principle"; "theory"; "example"; "definition";
   "explanation"; "practice"; "exercise"; "summary"].

(** The bonus accumulated by the three blocks, before it is capped. *)
Definition raw_bonus (persona text : string) : F64.float :=
  let bonus := F64.zero in
  let bonus :=
    if Py.contains_any ["researcher"; "phd"; "academic"; "student"] (Py.lower persona)
    then F64.add bonus (F64.mul (F64.of_int (count_terms research_terms text)) F64.c0_05)
    else bonus in
  let bonus :=
    if Py.contains_any ["analyst"; "investment"; "business"] (Py.lower persona)
    then F64.add bonus (F64.mul (F64.of_int (count_terms business_terms text)) F64.c0_05)
    else bonus in
  let bonus :=
    if Py.contains_any ["student"; "learner"; "education"] (Py.lower persona)
    then F64.add bonus (F64.mul (F64.of_int (count_terms educational_terms text)) F64.c0_05)
    else bonus in
  bonus.

Definition _get_domain_bonuses (persona text : string) : F64.float :=
  F64.min (raw_bonus persona text) F64.c0_3.

(** [overlap / max(len(keywords), 1)] *)
Definition overlap_score (keywords section_keywords : gset string) : F64.float :=
  let overlap := Z.of_nat (size (keywords ∩ section_keywords)) in
  F64.truediv overlap (Z.max (Z.of_nat (size keywords)) 1).

Definition combined_text (section : Enriched) : string :=
  let section_text := Py.lower (es_text section) in
  let section_content := Py.lower (default "" (es_content section)) in
  section_text +:+ " " +:+ section_content.

(** The score before the final cap at [1.0]. *)
Definition uncapped_score (persona : string) (section : Enriched)
    (persona_keywords job_keywords : gset string) : F64.float :=
  let section_keywords := _extract_keywords (combined_text section) in
  let persona_score := overlap_score persona_keywords section_keywords in
  let job_score := overlap_score job_keywords section_keywords in
  let score := F64.add (F64.mul F64.c0_6 job_score) (F64.mul F64.c0_4 persona_score) in
  let domain_bonuses := _get_domain_bonuses persona (combined_text section) in
  F64.add score domain_bonuses.

Definition _calculate_relevance_score (persona : string) (section : Enriched)
    (persona_keywords job_keywords : gset string) : F64.float :=
  F64.min (uncapped_score persona section persona_keywords job_keywords) F64.one.

(** The entry appended for a section that passes the threshold; its
    [importance_rank] holds the score for now. *)
Definition entry (doc : Document) (section : Enriched) (relevance_score : F64.float) : Ranked :=
  {| document := filename doc; rk_page := es_page section;
     section_title := es_text section;
     importance_rank := PyFloat relevance_score |}.

(** The sort key [x["importance_rank"]]. *)
Definition rank_key (x : Ranked) : F64.float :=
  match importance_rank x with
  | PyFloat f => f
  | PyInt n => F64.of_int n
  end.

Definition set_rank (i : nat) (section : Ranked) : Ranked :=
  {| document := document section; rk_page := rk_page section;
     section_title := section_title section;
     importance_rank := PyInt (Z.of_nat i + 1) |}.

Definition _extract_relevant_sections (persona job_to_be_done : string)
    (documents : list Document) : list Ranked :=
  let persona_keywords := _extract_keywords persona in
  let job_keywords := _extract_keywords job_to_be_done in
  let relevant_sections :=
    flat_map
      (fun doc =>
         flat_map
           (fun section =>
              let relevance_score :=
                _calculate_relevance_score persona section persona_keywords job_keywords in
              if F64.ltb F64.c0_1 relevance_score
              then [entry doc section relevance_score]
              else [])
           (sections (content doc)))
      documents in
  let relevant_sections := sort_desc F64.ltb rank_key relevant_sections in
  imap set_rank relevant_sections.

Definition _refine_section_content (persona job_to_be_done : string)
    (section : Ranked) : string :=
  "Key insights from " +:+ section_title section +:+ " relevant to " +:+ persona
    +:+ " for " +:+ job_to_be_done.

Definition _analyze_subsections (persona job_to_be_done : string)
    (relevant_sections : list Ranked) : list Subsection :=
  map (fun section =>
         {| sub_document := document section; sub_page := rk_page section;
            sub_section_title := section_title section;
            refined_text := _refine_section_content persona job_to_be_done section;
            relevance_score := importance_rank section |})
      (take 10 relevant_sections).

Section WithProcessor.
Context {St : Type}.
Variable processor : PDFProcessor St.

(** Reading the attribute [self.processor.page_count]. *)
Definition get_page_count : M St Z :=
  fun st => (Ok (page_count processor st), st).

Definition enrich_one (sections : list RawSection) (i : nat) (section : RawSection)
    : M St Enriched :=
  let page_num := (sec_page section - 1)%Z in
  n ← get_page_count;
  if (page_num <? n)%Z
  then
    page_text ← extract_page_text processor page_num;
    let section_content :=
      _extract_section_content page_text (sec_text section) i sections in
    mret {| es_text := sec_text section; es_page := sec_page section;
            es_content := Some section_content |}
  else
    mret {| es_text := sec_text section; es_page := sec_page section;
            es_content := None |}.

Definition _enrich_sections (sections : list RawSection) : M St (list Enriched) :=
  mapM (fun p => enrich_one sections (fst p) (snd p))
       (zip (seq 0 (length sections)) sections).

Definition _extract_detailed_content (pdf_file : string) : M St Content :=
  full_text ← extract_all_text processor;
  n ← get_page_count;
  pages ← mapM (fun page_num =>
                  page_text ← extract_page_text processor page_num;
                  mret ((page_num + 1)%Z, page_text))
               (seqZ 0 n);
  sections ← extract_sections_by_formatting processor;
  enriched ← _enrich_sections sections;
  mret {| full_text := full_text; sections := enriched;
          page_texts := list_to_map pages |}.

(** The analyzer owns one processor and its extractor owns another: the
    state is the pair of theirs. *)
Definition own {A : Type} (m : M St A) : M (St * St) A :=
  fun st => let (r, s) := m (fst st) in (r, (s, snd st)).

Definition of_extractor {A : Type} (m : M St A) : M (St * St) A :=
  fun st => let (r, s) := m (snd st) in (r, (fst st, s)).

(** One turn of the loop of [_extract_document_contents].  The document
    is appended before the processor is closed, so an exception of
    [close] leaves it in the list. *)
Definition process_file (pdf_file : string) (documents : list Document)
    : M (St * St) (list Document) :=
  try_except
    (ok ← own (load_pdf processor pdf_file);
     if negb ok then mret documents
     else
       structure ← of_extractor (StructureExtractor.extract_structure processor pdf_file);
       content ← own (_extract_detailed_content pdf_file);
       let documents' :=
         documents ++ [{| filename := path_name pdf_file;
                          doc_title := title structure;
                          doc_outline := outline structure;
                          content := content |}] in
       try_except (own (close processor);; mret documents')
                  (fun _ => mret documents'))
    (fun _ => mret documents).

Fixpoint contents_loop (pdf_files : list string) (documents : list Document)
    : M (St * St) (list Document) :=
  match pdf_files with
  | [] => mret documents
  | pdf_file :: rest =>
      documents' ← process_file pdf_file documents;
      contents_loop rest documents'
  end.

Definition _extract_document_contents (pdf_files : list string)
    : M (St * St) (list Document) :=
  contents_loop pdf_files [].

(** [analyze_documents]; [now] is the clock reading put in the metadata. *)
Definition analyze_documents (pdf_files : list string)
    (persona job_to_be_done now : string) : M (St * St) Analysis :=
  document_contents ← _extract_document_contents pdf_files;
  let relevant_sections :=
    _extract_relevant_sections persona job_to_be_done document_contents in
  let subsection_analysis :=
    _analyze_subsections persona job_to_be_done relevant_sections in
  mret {| metadata := {| documents := map path_name pdf_files;
                         md_persona := persona;
                         md_job_to_be_done := job_to_be_done;
                         timestamp := now |};
          extracted_sections := relevant_sections;
          subsection_analysis := subsection_analysis |}.
End WithProcessor.

End PersonaAnalyzer.

(** ** An in-memory loader *)

Module MemoryLoader.

(** What the loader reports about one PDF file. *)
Record PDF : Type :=
  { pdf_sections : list RawSection;
    pdf_pages : list string;
    pdf_title : option string;
    pdf_candidates : list (string * Z) }.

Fixpoint lookup_file (files : list (string * PDF)) (path : string) : option PDF :=
  match files with
  | [] => None
  | (p, d) :: rest => if String.eqb p path then Some d else lookup_file rest path
  end.

Definition query {A : Type} (f : PDF -> result A) : M (option PDF) A :=
  fun st =>
    match st with
    | Some d => (f d, st)
    | None => (Raise "no document is open", st)
    end.

Definition page_of (d : PDF) (i : Z) : result string :=
  if (i <? 0)%Z then Raise "page not in document"
  else match pdf_pages d !! Z.to_nat i with
       | Some t => Ok t
       | None => Raise "page not in document"
       end.

(** Modelled from the spec: the external loader of section 6
    ([pdf_processor.py] is not among the sources).  The files it can open
    are those of [files]; the state is the document that is open, if any. *)
Definition processor (files : list (string * PDF)) : PDFProcessor (option PDF) :=
  {| load_pdf := fun path _ =>
       match lookup_file files path with
       | Some d => (Ok true, Some d)
       | None => (Ok false, None)
       end;
     extract_sections_by_formatting := query (fun d => Ok (pdf_sections d));
     extract_page_text := fun i => query (fun d => page_of d i);
     extract_all_text := query (fun d => Ok (Py.join (String Py.newline "") (pdf_pages d)));
     page_count := fun st =>
       match st with Some d => Z.of_nat (length (pdf_pages d)) | None => 0%Z end;
     get_document_info := query (fun d => Ok (pdf_title d));
     find_title_candidates := query (fun d => Ok (pdf_candidates d));
     close := fun _ => (Ok tt, None) |}.

End MemoryLoader.

(** ** Statements used by the properties *)

Module Spec.

Import Re StructureExtractor.

(** The prefixes that mark a candidate as noise. *)
Definition noise_prefixes : list string :=
  ["page"; "figure"; "table"; "ref"; "www."; "http"].

(** One or two digits, a space, three or more capitals: [\d{1,2} [A-Z]{3,}],
    the last alternative of the noise pattern. *)
Definition date_alternative : regex :=
  Seq digit (Seq (Opt digit)
    (Seq (Chr " ") (Seq upper (Seq upper (Seq upper (Star upper)))))).

(** The same, anchored: [^\d{1,2} [A-Z]{3,}]. *)
Definition date_re : regex := Seq Bol date_alternative.

(** A position in a lowercased text. *)
Definition lowered (k : cursor) : Prop := exists s, snd k = Py.lower s.

(** The keywords that make [_determine_level] answer ["H1"]. *)
Definition h1_keywords : list string := ["overview of"; "introduction to"; "references"].

(** The three checks that precede the importance test in [_refine_sections]. *)
Definition passes_filters (seen : gset string) (text : string) : Prop :=
  (text ∉ seen) /\ (3 <= Py.len text <= 150) /\ matches noise_re (Py.lower text) = false.

Definition heading_of (sec : RawSection) (level : string) : Heading :=
  {| h_level := level; h_text := Py.strip (sec_text sec); h_page := sec_page sec |}.

End Spec.

Module Invariant.

(** The invariant of a heading record: trimmed text of 3 to 150
    characters and one of the two levels. *)
Definition level_ok (h : Heading) : Prop := h_level h = "H1" \/ h_level h = "H2".

Definition heading_ok (h : Heading) : Prop :=
  Py.strip (h_text h) = h_text h /\ (3 <= Py.len (h_text h) <= 150) /\ level_ok h.

(** No two records of an outline have the same text. *)
Definition unique_texts (outline : list Heading) : Prop := NoDup (map h_text outline).

(** The object returned when the file cannot be loaded. *)
Definition error_structure : Structure :=
  {| title := "Error"; outline := []; error := Some "Failed to load PDF" |}.

(** A line that the title scan passes over. *)
Definition skipped_line (line : string) : Prop :=
  Re.matches StructureExtractor.title_skip_re (Py.lower line) = true.

(** What the label scan promises for a record: level H2, page 1, and the
    text of a trimmed label line without its trailing colons. *)
Definition fallback_ok (h : Heading) : Prop :=
  h_level h = "H2" /\ h_page h = 1%Z /\
  exists line, StructureExtractor.is_label (Py.strip line) = true /\
               h_text h = Py.rstrip_colon (Py.strip line).

End Invariant.

Module Fixtures.

Import MemoryLoader.

Definition nl : string := String Py.newline "".

(** A form: no heading candidate, three labels on the first page. *)
Definition form_pdf : PDF :=
  {| pdf_sections := [];
     pdf_pages := ["ID:" +:+ nl +:+ "ID:" +:+ nl +:+ "My Name :"];
     pdf_title := Some "";
     pdf_candidates := [] |}.

(** A report with an empty metadata title and no title candidate. *)
Definition report_pdf : PDF :=
  {| pdf_sections := [{| sec_text := "SUMMARY:"; sec_page := 1 |}];
     pdf_pages := ["Quarterly Report 2024" +:+ nl +:+ "SUMMARY:" +:+ nl +:+ "All went well."];
     pdf_title := Some "";
     pdf_candidates := [] |}.

(** The same, with a first page on which every line is a skipped one. *)
Definition bare_pdf : PDF :=
  {| pdf_sections := [{| sec_text := "NOTE:"; sec_page := 1 |}];
     pdf_pages := ["Page 1 of 3" +:+ nl +:+ "NOTE:" +:+ nl +:+ "Short"];
     pdf_title := Some "";
     pdf_candidates := [] |}.

(** A paper: its first candidate is a sentence-case line that the
    segmenter drops, its second an upper-case heading that it keeps. *)
Definition paper_pdf : PDF :=
  {| pdf_sections :=
       [{| sec_text := "Methodology and results of the analysis"; sec_page := 1 |};
        {| sec_text := "EXPERIMENT DATA"; sec_page := 2 |}];
     pdf_pages :=
       ["Methodology and results of the analysis" +:+ nl
          +:+ "The data supports the hypothesis.";
        "EXPERIMENT DATA" +:+ nl +:+ "Forty runs."];
     pdf_title := Some "A Paper";
     pdf_candidates := [] |}.

Definition files : list (string * PDF) :=
  [("in/form.pdf", form_pdf); ("in/report.pdf", report_pdf); ("in/bare.pdf", bare_pdf);
   ("in/paper.pdf", paper_pdf)].

End Fixtures.

(** ** A loader that answers the same on each call *)

Module Replay.

(** The answers of the calls that the outline pipeline makes. *)
Record Answers : Type :=
  { a_load : result bool;
    a_sections : result (list RawSection);
    a_page0 : result string;
    a_info : result (option string);
    a_candidates : result (list (string * Z));
    a_close : result unit }.

Definition loaded (r : result bool) : bool :=
  match r with Ok true => true | _ => false end.

(** [Replayable P path ready opened a]: from a state in which a file can
    be loaded ([ready]), loading [path] always answers [a_load a]; while the
    file is open ([opened]), each query always answers what [a] records. *)
Record Replayable {St : Type} (P : PDFProcessor St) (path : string)
    (ready opened : St -> Prop) (a : Answers) : Prop :=
  { opened_ready : forall st, opened st -> ready st;
    load_same : forall st, ready st ->
      exists st', load_pdf P path st = (a_load a, st') /\
                  (if loaded (a_load a) then opened st' else ready st');
    sections_same : forall st, opened st ->
      exists st', extract_sections_by_formatting P st = (a_sections a, st') /\ opened st';
    page0_same : forall st, opened st ->
      exists st', extract_page_text P 0%Z st = (a_page0 a, st') /\ opened st';
    info_same : forall st, opened st ->
      exists st', get_document_info P st = (a_info a, st') /\ opened st';
    candidates_same : forall st, opened st ->
      exists st', find_title_candidates P st = (a_candidates a, st') /\ opened st';
    close_same : forall st, opened st ->
      exists st', close P st = (a_close a, st') /\ ready st' }.

(** Two runs of a computation agree: same result, and both end in a state
    from which the file can be loaded again. *)
Definition agree {St A : Type} (ready : St -> Prop) (m : M St A) (s1 s2 : St) : Prop :=
  fst (m s1) = fst (m s2) /\ ready (snd (m s1)) /\ ready (snd (m s2)).

(** The same, for a computation that leaves the file open when it
    returns normally. *)
Definition agree_open {St A : Type} (ready opened : St -> Prop) (m : M St A)
    (s1 s2 : St) : Prop :=
  fst (m s1) = fst (m s2) /\
  match fst (m s1) with
  | Ok _ => opened (snd (m s1)) /\ opened (snd (m s2))
  | Raise _ => ready (snd (m s1)) /\ ready (snd (m s2))
  end.

(** The answers of the in-memory loader for a file. *)
Definition answers_of (d : MemoryLoader.PDF) : Answers :=
  {| a_load := Ok true;
     a_sections := Ok (MemoryLoader.pdf_sections d);
     a_page0 := MemoryLoader.page_of d 0;
     a_info := Ok (MemoryLoader.pdf_title d);
     a_candidates := Ok (MemoryLoader.pdf_candidates d);
     a_close := Ok tt |}.

End Replay.

(** ** Statements about section expansion *)

Module Expansion.

Import PersonaAnalyzer.

(** One of the three heading shapes matches. *)
Definition shape (t : string) : bool :=
  existsb (fun pattern => Re.matches pattern t) heading_patterns.

(** A line that ends a section: its trimmed text has more than 3 and at
    most 150 characters and one of the heading shapes. *)
Definition boundary (raw_line : string) : bool :=
  let t := Py.strip raw_line in
  (3 <? Py.len t) && (Py.len t <=? 150) && shape t.

(** [lines[a+1:b]] *)
Definition between (lines : list string) (a b : nat) : list string :=
  take (b - S a) (drop (S a) lines).

(** The first line that contains the title, case ignored. *)
Definition start_of (lines : list string) (section_title : string) : option nat :=
  find_index (fun line => Py.contains (Py.lower section_title) (Py.lower line)) lines.

(** The end boundary in the words of the claim: any later line whose
    trimmed text is longer than 3 characters and has a heading shape. *)
Definition claimed_boundary (raw_line : string) : bool :=
  let t := Py.strip raw_line in (3 <? Py.len t) && shape t.

(** The content in the words of the claim: the lines strictly between the
    start line and the first claimed boundary after it. *)
Definition claimed_content (page_text section_title : string) : string :=
  let lines := Py.split_lines page_text in
  match start_of lines section_title with
  | None => ""
  | Some start_line =>
      let end_line :=
        match find_index claimed_boundary (drop (S start_line) lines) with
        | Some j => S start_line + j
        | None => length lines
        end in
      Py.join (String Py.newline "") (between lines start_line end_line)
  end.

(** A line of 151 capitals. *)
Definition long_caps : string :=
  Eval vm_compute in string_of_list_ascii (repeat "A"%char 151).

Definition page : string :=
  Py.join (String Py.newline "") ["Results"; "body"; long_caps; "more"].

End Expansion.

(** ** Statements about the ranker *)

Module Ranking.

Import PersonaAnalyzer.

(** Every section of every document, in the order of the two nested
    loops, as the entry that holds its relevance score. *)
Definition all_entries (persona job_to_be_done : string) (documents : list Document)
    : list Ranked :=
  let persona_keywords := _extract_keywords persona in
  let job_keywords := _extract_keywords job_to_be_done in
  flat_map
    (fun doc =>
       map (fun section =>
              entry doc section
                (_calculate_relevance_score persona section persona_keywords job_keywords))
           (sections (content doc)))
    documents.

(** The entries whose score is above the threshold [0.1]. *)
Definition kept (persona job_to_be_done : string) (documents : list Document)
    : list Ranked :=
  List.filter (fun e => F64.ltb F64.c0_1 (rank_key e))
    (all_entries persona job_to_be_done documents).


(** [y] has the same score as [x]. *)
Definition tied (x y : Ranked) : bool :=
  negb (F64.ltb (rank_key x) (rank_key y)) && negb (F64.ltb (rank_key y) (rank_key x)).

(** The ranks [1, 2, ..., n]. *)
Definition ranks (n : nat) : list pyval := map (fun i => PyInt (Z.of_nat i)) (seq 1 n).

End Ranking.

(** ** Statements about what the relevance pipeline scores *)

Module Provenance.

(** [e] is the copy of the candidate [c]. *)
Definition copy_of (c : RawSection) (e : Enriched) : Prop :=
  es_text e = sec_text c /\ es_page e = sec_page c.

(** The turn of the loop for [pdf_file], started with the analyzer's
    processor in state [st], reads the candidates [raw]: the file is
    loaded, the full text and then every page are read, and the call of
    [extract_sections_by_formatting] that follows returns [raw].  Each call
    starts in the state that the call before it left. *)
Definition reads {St : Type} (P : PDFProcessor St) (pdf_file : string) (st : St)
    (raw : list RawSection) : Prop :=
  exists s1 full_text s2 pages s3 s4,
    load_pdf P pdf_file st = (Ok true, s1) /\
    extract_all_text P s1 = (Ok full_text, s2) /\
    mapM (fun page_num =>
            page_text ← extract_page_text P page_num;
            mret ((page_num + 1)%Z, page_text))
         (seqZ 0 (page_count P s2)) s2 = (Ok pages, s3) /\
    extract_sections_by_formatting P s3 = (Ok raw, s4).

(** What one turn of the loop, started in state [st], can add to the
    list: a document named after the file, whose sections are the copies, in
    the same order, of the candidates that the turn reads. *)
Definition added {St : Type} (P : PDFProcessor St) (pdf_file : string) (st : St)
    (doc : Document) : Prop :=
  filename doc = path_name pdf_file /\
  exists raw, reads P pdf_file st raw /\ Forall2 copy_of raw (sections (content doc)).


End Provenance.

(** ** Statements about the segmenter as a whole *)

Module Segmenter.

Import StructureExtractor.

(** A trimmed text that the segmenter keeps when it meets it for the first
    time: 3 to 150 characters, none of the six noise prefixes, importance
    above 0. *)
Definition accepted (t : string) : bool :=
  (3 <=? Py.len t) && (Py.len t <=? 150)
  && negb (existsb (fun p => Py.startswith p (Py.lower t)) Spec.noise_prefixes)
  && negb (_calculate_importance t =? 0)%Z.

(** The heading that a candidate becomes when it is kept. *)
Definition heading_for (sec : RawSection) : Heading :=
  Spec.heading_of sec (_determine_level (Py.strip (sec_text sec))).

(** A heading read back as a candidate. *)
Definition to_raw (h : Heading) : RawSection :=
  {| sec_text := h_text h; sec_page := h_page h |}.

(** The texts of an outline. *)
Definition texts (outline : list Heading) : list string := map h_text outline.

(** The set of seen texts is the set of the texts kept so far. *)
Definition in_step (seen : gset string) (cleaned : list Heading) : Prop :=
  forall t, t ∈ seen <-> t ∈ texts cleaned.

End Segmenter.

(** ** Statements about the label scan and the title scan *)

Module Scan.

Import StructureExtractor.

Fixpoint forallb_str (p : ascii -> bool) (s : string) : bool :=
  match s with
  | EmptyString => true
  | String c s' => p c && forallb_str p s'
  end.

(** A text made of colons only. *)
Definition colons (s : string) : bool := forallb_str (fun c => Ascii.eqb c ":") s.

(** The lines that the title scan scores: looked at, and not skipped. *)
Definition scored_line (text line : string) : Prop :=
  line ∈ title_lines text /\ Re.matches title_skip_re (Py.lower line) = false.

End Scan.

(** A file without any text: no candidate, one empty page, no metadata. *)
Module Blank.

Definition blank_pdf : MemoryLoader.PDF :=
  {| MemoryLoader.pdf_sections := [];
     MemoryLoader.pdf_pages := [""];
     MemoryLoader.pdf_title := None;
     MemoryLoader.pdf_candidates := [] |}.

Definition files : list (string * MemoryLoader.PDF) := [("in/blank.pdf", blank_pdf)].

End Blank.

(** ** Statements about heading shapes and keywords *)

Module Shapes.

(** The text begins with a digit or a capital letter. *)
Definition starts_like_heading (text : string) : bool :=
  match text with
  | String c _ => Py.is_digit c || Py.is_upper c
  | EmptyString => false
  end.

(** The loop of a greedy repetition, by name. *)
Fixpoint star_loop (step : Re.cursor -> list Re.cursor) (fuel : nat) (k : Re.cursor)
    : list Re.cursor :=
  match fuel with
  | O => [k]
  | S fuel' =>
      flat_map (fun k' => if Re.shorter k' k then star_loop step fuel' k' else [])
               (step k) ++ [k]
  end.

(** The text between two positions: [w] with [n] characters at least,
    all of which pass [p]. *)
Definition run (p : ascii -> bool) (n : nat) (k k' : Re.cursor) : Prop :=
  exists w, snd k = w +:+ snd k' /\ Scan.forallb_str p w = true /\ n <= String.length w.

(** No capital letter is left in the text that remains. *)
Definition no_capital (k : Re.cursor) : Prop :=
  Scan.forallb_str (fun c => negb (Py.is_upper c)) (snd k) = true.

(** A keyword: three lowercase letters or more. *)
Definition keyword (w : string) : Prop :=
  3 <= String.length w /\ Scan.forallb_str Py.is_lower w = true.

End Shapes.

(** ** Statements about scores *)

Module Scores.

(** All the words that trigger a domain bonus. *)
Definition triggers : list string :=
  ["researcher"; "phd"; "academic"; "student"; "analyst"; "investment"; "business";
   "learner"; "education"].

(** The persona names no trigger word. *)
Definition no_trigger (persona : string) : Prop :=
  Py.contains_any triggers (Py.lower persona) = false.

(** The section shares no keyword with the set. *)
Definition no_overlap (keywords : gset string) (section : Enriched) : Prop :=
  keywords ∩ PersonaAnalyzer._extract_keywords (PersonaAnalyzer.combined_text section) = ∅.

(** One document with one section that names research terms. *)
Definition sample_documents : list Document :=
  [{| filename := "paper.pdf"; doc_title := "A Paper"; doc_outline := [];
      content := {| full_text := "Methodology";
                    sections := [{| es_text := "Methodology"; es_page := 1;
                                    es_content := Some "results analysis" |}];
                    page_texts := ∅ |} |}].

End Scores.

(** ** Statements about the analysis as a whole *)

Module Whole.

(** The subsection record [s] repeats the ranked section [r], rank
    included. *)
Definition repeats (s : Subsection) (r : Ranked) : Prop :=
  sub_document s = document r /\ sub_page s = rk_page r /\
  sub_section_title s = section_title r /\ relevance_score s = importance_rank r.

End Whole.

(** ** Statements about the detailed content *)

Module Detail.

(** [e] is the copy of the candidate [c], and its content, where it has
    one, is trimmed. *)
Definition enriched_from (c : RawSection) (e : Enriched) : Prop :=
  Provenance.copy_of c e /\
  forall t, es_content e = Some t -> Py.strip t = t.

End Detail.

(** ** Statements about exceptions *)

Module Failures.

(** The document that one turn of the loop appends. *)
Definition document_of (pdf_file : string) (structure : Structure) (c : Content)
    : Document :=
  {| filename := path_name pdf_file; doc_title := title structure;
     doc_outline := outline structure; content := c |}.

(** A file with a candidate on page 0: the page before the first one is
    asked for, and the in-memory loader raises. *)
Definition page0_pdf : MemoryLoader.PDF :=
  {| MemoryLoader.pdf_sections := [{| sec_text := "SUMMARY:"; sec_page := 0 |}];
     MemoryLoader.pdf_pages := ["SUMMARY:"];
     MemoryLoader.pdf_title := Some "Page zero";
     MemoryLoader.pdf_candidates := [] |}.

Definition files : list (string * MemoryLoader.PDF) := [("in/page0.pdf", page0_pdf)].

(** The in-memory loader with a flag that is set when the full text is
    read, and a [close] that raises once the flag is set. *)
Definition flagged {A : Type} (m : M (option MemoryLoader.PDF) A)
    : M (option MemoryLoader.PDF * bool) A :=
  fun st => let (r, s) := m (fst st) in (r, (s, snd st)).

Definition fussy_processor (files : list (string * MemoryLoader.PDF))
    : PDFProcessor (option MemoryLoader.PDF * bool) :=
  let P := MemoryLoader.processor files in
  {| load_pdf := fun path => flagged (load_pdf P path);
     extract_sections_by_formatting := flagged (extract_sections_by_formatting P);
     extract_page_text := fun i => flagged (extract_page_text P i);
     extract_all_text := fun st =>
       let (r, s) := extract_all_text P (fst st) in (r, (s, true));
     page_count := fun st => page_count P (fst st);
     get_document_info := flagged (get_document_info P);
     find_title_candidates := flagged (find_title_candidates P);
     close := fun st =>
       if snd st then (Raise "cannot close", st) else (Ok tt, (None, false)) |}.

End Failures.

(** * Properties *)

(** ** Facts about strings and patterns *)

Section StringFacts.

Lemma startswith_app p s : Py.startswith p s = true -> exists s', s = p +:+ s'.
Proof.
  revert s. induction p as [|a p IH]; intros s H.
  - exists s. reflexivity.
  - destruct s as [|b s]; simpl in H; [discriminate|].
    apply andb_true_iff in H as [Hab Hp].
    apply Ascii.eqb_eq in Hab. subst b.
    destruct (IH _ Hp) as [s' ->]. exists s'. reflexivity.
Qed.

Lemma ends_Str p b s' : exists b', Re.ends (Re.Str p) (b, p +:+ s') = [(b', s')].
Proof.
  revert b. induction p as [|a p IH]; intros b; simpl.
  - eauto.
  - unfold Re.step_if. simpl. rewrite Ascii.eqb_refl. simpl.
    destruct (IH (Some a)) as [b' ->]. exists b'. reflexivity.
Qed.

Lemma ends_Alts_nonempty rs r k :
  r ∈ rs -> Re.ends r k <> [] -> Re.ends (Re.Alts rs) k <> [].
Proof.
  induction rs as [|r0 rs IH]; intros Hin Hne.
  - inversion Hin.
  - destruct rs as [|r1 rs].
    + apply list_elem_of_singleton in Hin. subst. exact Hne.
    + change (Re.ends r0 k ++ Re.ends (Re.Alts (r1 :: rs)) k <> []).
      apply elem_of_cons in Hin as [->|Hin].
      * destruct (Re.ends r0 k); [congruence|discriminate].
      * specialize (IH Hin Hne). destruct (Re.ends r0 k); [exact IH|discriminate].
Qed.

Lemma matches_Bol_Alts rs r s :
  r ∈ rs -> Re.ends r (None, s) <> [] -> Re.matches (Re.Seq Re.Bol (Re.Alts rs)) s = true.
Proof.
  intros Hin Hne. unfold Re.matches.
  change (Re.ends (Re.Seq Re.Bol (Re.Alts rs)) (None, s))
    with (Re.ends (Re.Alts rs) (None, s) ++ []).
  rewrite app_nil_r.
  pose proof (ends_Alts_nonempty rs r (None, s) Hin Hne) as H.
  destruct (Re.ends (Re.Alts rs) (None, s)); congruence.
Qed.

(** A text that begins with one of the six noise prefixes matches the
    noise pattern. *)
Lemma noise_prefix_matches p s :
  p ∈ Spec.noise_prefixes -> Py.startswith p s = true ->
  Re.matches StructureExtractor.noise_re s = true.
Proof.
  intros Hp Hs. apply startswith_app in Hs as [s' ->].
  apply (matches_Bol_Alts _ (Re.Str p)).
  - unfold Spec.noise_prefixes in Hp.
    repeat (apply elem_of_cons in Hp as [->|Hp]; [set_solver|]).
    inversion Hp.
  - destruct (ends_Str p None s') as [b' ->]. discriminate.
Qed.

End StringFacts.

(** ** The segmenter, one candidate at a time *)

Lemma refine_loop_cons sec rest seen cleaned :
  StructureExtractor.refine_loop (sec :: rest) seen cleaned =
  let text := Py.strip (sec_text sec) in
  if bool_decide (text ∈ seen) || negb ((3 <=? Py.len text) && (Py.len text <=? 150))
  then StructureExtractor.refine_loop rest seen cleaned
  else if Re.matches StructureExtractor.noise_re (Py.lower text)
  then StructureExtractor.refine_loop rest seen cleaned
  else if (StructureExtractor._calculate_importance text =? 0)%Z
  then StructureExtractor.refine_loop rest seen cleaned
  else StructureExtractor.refine_loop rest ({[text]} ∪ seen)
         (cleaned ++ [Spec.heading_of sec (StructureExtractor._determine_level text)]).
Proof. reflexivity. Qed.

Section RefineSteps.

Import StructureExtractor.

Variable sec : RawSection.
Variable rest : list RawSection.
Variable seen : gset string.
Variable cleaned : list Heading.

Let text := Py.strip (sec_text sec).

Lemma refine_loop_seen :
  text ∈ seen -> refine_loop (sec :: rest) seen cleaned = refine_loop rest seen cleaned.
Proof.
  intros H. rewrite refine_loop_cons. cbv zeta. fold text.
  rewrite (bool_decide_eq_true_2 _ H). reflexivity.
Qed.

Lemma refine_loop_length :
  ~ (3 <= Py.len text <= 150) ->
  refine_loop (sec :: rest) seen cleaned = refine_loop rest seen cleaned.
Proof.
  intros H. rewrite refine_loop_cons. cbv zeta. fold text.
  destruct ((3 <=? Py.len text) && (Py.len text <=? 150)) eqn:E.
  - apply andb_true_iff in E as [E1 E2].
    apply Nat.leb_le in E1, E2. lia.
  - rewrite orb_true_r. reflexivity.
Qed.

Lemma refine_loop_noise :
  Re.matches noise_re (Py.lower text) = true ->
  refine_loop (sec :: rest) seen cleaned = refine_loop rest seen cleaned.
Proof.
  intros H. rewrite refine_loop_cons. cbv zeta. fold text. rewrite H.
  destruct (_ || _); reflexivity.
Qed.

Lemma refine_loop_unimportant :
  _calculate_importance text = 0%Z ->
  refine_loop (sec :: rest) seen cleaned = refine_loop rest seen cleaned.
Proof.
  intros H. rewrite refine_loop_cons. cbv zeta. fold text. rewrite H.
  destruct (_ || _); [reflexivity|].
  destruct (Re.matches _ _); reflexivity.
Qed.

Lemma refine_loop_accept :
  Spec.passes_filters seen text ->
  _calculate_importance text <> 0%Z ->
  refine_loop (sec :: rest) seen cleaned =
  refine_loop rest ({[text]} ∪ seen)
    (cleaned ++ [Spec.heading_of sec (_determine_level text)]).
Proof.
  intros (Hseen & Hlen & Hnoise) Himp. rewrite refine_loop_cons. cbv zeta. fold text.
  rewrite (bool_decide_eq_false_2 _ Hseen).
  replace ((3 <=? Py.len text) && (Py.len text <=? 150)) with true
    by (symmetry; apply andb_true_iff; split; apply Nat.leb_le; lia).
  rewrite Hnoise.
  apply Z.eqb_neq in Himp. rewrite Himp. reflexivity.
Qed.

End RefineSteps.

(** A candidate whose trimmed, lowercased text begins with a noise prefix
    is dropped. *)
Lemma noise_prefix_rejected sec rest seen cleaned p :
  p ∈ Spec.noise_prefixes ->
  Py.startswith p (Py.lower (Py.strip (sec_text sec))) = true ->
  StructureExtractor.refine_loop (sec :: rest) seen cleaned =
  StructureExtractor.refine_loop rest seen cleaned.
Proof.
  intros Hp Hs. apply refine_loop_noise. eapply noise_prefix_matches; eauto.
Qed.

(** ** The date alternative of the noise pattern *)

Section DeadBranch.
Import Re.

Abbreviation lowered := Spec.lowered.

Lemma lower_char_not_upper c : Py.is_upper (Py.lower_char c) = false.
Proof.
  unfold Py.lower_char. destruct (Py.is_upper c) eqn:E; [|exact E].
  unfold Py.is_upper, Py.in_range, Py.code in *.
  apply andb_true_iff in E as [E1 E2]. apply Nat.leb_le in E1, E2.
  rewrite nat_ascii_embedding by lia.
  apply andb_false_iff. right. apply Nat.leb_gt. lia.
Qed.

Lemma step_if_lowered p k : lowered k -> Forall lowered (step_if p k).
Proof.
  intros [s Hs]. unfold step_if. rewrite Hs.
  destruct s as [|c s]; simpl; [constructor|].
  destruct (p _); repeat constructor. exists s. reflexivity.
Qed.

Lemma step_upper_lowered k : lowered k -> step_if Py.is_upper k = [].
Proof.
  intros [s Hs]. unfold step_if. rewrite Hs.
  destruct s as [|c s]; simpl; [reflexivity|].
  rewrite lower_char_not_upper. reflexivity.
Qed.

Lemma flat_map_nil {A B} (f : A -> list B) (P : A -> Prop) l :
  Forall P l -> (forall x, P x -> f x = []) -> flat_map f l = [].
Proof.
  intros Hl Hf. induction Hl as [|x l Hx Hl IH]; [reflexivity|].
  simpl. rewrite (Hf x Hx), IH. reflexivity.
Qed.

Lemma ends_Seq r1 r2 k : ends (Seq r1 r2) k = flat_map (ends r2) (ends r1 k).
Proof. reflexivity. Qed.

Lemma ends_Alt r1 r2 k : ends (Alt r1 r2) k = ends r1 k ++ ends r2 k.
Proof. reflexivity. Qed.

Lemma ends_Seq_dead r1 r2 k :
  Forall lowered (ends r1 k) -> (forall k', lowered k' -> ends r2 k' = []) ->
  ends (Seq r1 r2) k = [].
Proof. intros H1 H2. rewrite ends_Seq. apply (flat_map_nil _ lowered); assumption. Qed.

(** On a lowercased text the date alternative of the noise pattern never
    matches: it asks for capitals. *)
Lemma date_alternative_dead t : ends Spec.date_alternative (None, Py.lower t) = [].
Proof.
  unfold Spec.date_alternative.
  assert (H0 : lowered (None, Py.lower t)) by (exists t; reflexivity).
  rewrite ends_Seq_dead; [reflexivity|apply step_if_lowered, H0|].
  intros k1 H1. apply ends_Seq_dead.
  - apply Forall_app. split; [apply step_if_lowered, H1|repeat constructor; exact H1].
  - intros k2 H2. apply ends_Seq_dead; [apply step_if_lowered, H2|].
    intros k3 H3. rewrite ends_Seq.
    change (ends StructureExtractor.upper k3) with (step_if Py.is_upper k3).
    rewrite (step_upper_lowered _ H3). reflexivity.
Qed.

Lemma ends_Str_mismatch p b s : Py.startswith p s = false -> ends (Str p) (b, s) = [].
Proof.
  revert b s. induction p as [|a p IH]; intros b s H; [discriminate|].
  destruct s as [|c s]; [reflexivity|].
  cbn [Str]. rewrite ends_Seq. cbn [ends]. unfold step_if. cbn [snd].
  cbn [Py.startswith] in H.
  destruct (Ascii.eqb a c) eqn:E; [|reflexivity].
  cbn [flat_map]. rewrite (IH _ _ H). reflexivity.
Qed.

(** The noise test of the segmenter is the test of the six prefixes. *)
Lemma noise_test_is_prefix_test t :
  matches StructureExtractor.noise_re (Py.lower t)
  = existsb (fun p => Py.startswith p (Py.lower t)) Spec.noise_prefixes.
Proof.
  destruct (existsb _ Spec.noise_prefixes) eqn:E.
  - apply existsb_exists in E as (p & Hp & Hs).
    apply (noise_prefix_matches p); [apply list_elem_of_In, Hp|exact Hs].
  - unfold Spec.noise_prefixes in E. cbn [existsb] in E.
    repeat (apply orb_false_iff in E as [? E]).
    unfold matches, StructureExtractor.noise_re.
    rewrite ends_Seq.
    change (ends Bol (None, Py.lower t)) with [(None : option ascii, Py.lower t)].
    cbn [flat_map Alts]. rewrite app_nil_r, !ends_Alt.
    rewrite !ends_Str_mismatch by assumption. cbn [app].
    apply (f_equal (fun l : list cursor => match l with [] => false | _ :: _ => true end)
             (date_alternative_dead t)).
Qed.
End DeadBranch.

(** C5 (defect in the code).  The candidate "12 JAN" has one or two digits,
    a space and three capitals, so the claim has the segmenter reject it; the
    pattern is tried on the lowercased text, where its capitals cannot
    match, and the candidate is emitted as an H2 heading. *)
Theorem C5_date_like_candidate_is_emitted :
  Re.matches Spec.date_re "12 JAN" = true /\
  Re.matches StructureExtractor.noise_re (Py.lower "12 JAN") = false /\
  StructureExtractor._refine_sections [{| sec_text := "12 JAN"; sec_page := 1 |}]
  = [{| h_level := "H2"; h_text := "12 JAN"; h_page := 1 |}].
Proof. vm_compute. repeat split. Qed.

(** C6 (as amended).  A candidate whose trimmed text passes the three
    filters, ends with ":" and has at most 8 words gets importance at least
    1 and is emitted; its level is H1 when the lowercased text contains
    "overview of", "introduction to" or "references", and H2 otherwise. *)
Theorem C6_label_importance_and_level sec rest seen cleaned :
  let text := Py.strip (sec_text sec) in
  Spec.passes_filters seen text ->
  StructureExtractor.is_label text = true ->
  (1 <= StructureExtractor._calculate_importance text)%Z /\
  StructureExtractor._determine_level text
  = (if Py.contains_any Spec.h1_keywords (Py.lower text) then "H1" else "H2") /\
  StructureExtractor.refine_loop (sec :: rest) seen cleaned
  = StructureExtractor.refine_loop rest ({[text]} ∪ seen)
      (cleaned ++ [Spec.heading_of sec (StructureExtractor._determine_level text)]).
Proof.
  intros text Hpass Hlabel.
  assert (Himp : (1 <= StructureExtractor._calculate_importance text)%Z).
  { unfold StructureExtractor._calculate_importance. rewrite Hlabel.
    destruct (Py.contains_any _ _); lia. }
  split; [exact Himp|]. split.
  - unfold StructureExtractor._determine_level, Spec.h1_keywords. rewrite Hlabel.
    destruct (Py.contains_any _ _); reflexivity.
  - apply refine_loop_accept; [exact Hpass|subst text; lia].
Qed.

Lemma C6_label_importance_and_level_witness :
  let sec := {| sec_text := " Name: "; sec_page := 1 |} in
  (1 <= StructureExtractor._calculate_importance "Name:")%Z /\
  StructureExtractor._determine_level "Name:" = "H2" /\
  StructureExtractor.refine_loop [sec] ∅ []
  = [{| h_level := "H2"; h_text := "Name:"; h_page := 1 |}].
Proof.
  intros sec.
  apply (C6_label_importance_and_level sec [] ∅ []).
  - split; [set_solver|]. split; [vm_compute; lia|reflexivity].
  - reflexivity.
Defined.

(** C6 fails as stated: "Overview of Results:" is trimmed, passes the
    length and noise filters, ends with ":" and has three words, and its
    level is H1. *)
Lemma C6_counterexample :
  let text := "Overview of Results:" in
  Py.strip text = text /\
  Spec.passes_filters ∅ text /\
  StructureExtractor.is_label text = true /\
  StructureExtractor._determine_level text <> "H2" /\
  StructureExtractor._refine_sections [{| sec_text := text; sec_page := 1 |}]
  = [{| h_level := "H1"; h_text := text; h_page := 1 |}].
Proof.
  intros text. split; [reflexivity|]. split.
  - split; [set_solver|]. split; [vm_compute; lia|reflexivity].
  - split; [reflexivity|]. split; [discriminate|reflexivity].
Qed.

(** ** Trimming *)

Section Trim.

Variable p : ascii -> bool.

Lemma lstrip_by_idem s : Py.lstrip_by p (Py.lstrip_by p s) = Py.lstrip_by p s.
Proof.
  induction s as [|c s IH]; simpl; [reflexivity|].
  destruct (p c) eqn:E; [exact IH|]. simpl. rewrite E. reflexivity.
Qed.

Lemma rstrip_by_idem s : Py.rstrip_by p (Py.rstrip_by p s) = Py.rstrip_by p s.
Proof.
  induction s as [|c s IH]; simpl; [reflexivity|].
  destruct (Py.rstrip_by p s) as [|d r] eqn:E.
  - destruct (p c) eqn:Ec; simpl; [reflexivity|]. rewrite Ec. reflexivity.
  - simpl in *. rewrite IH. reflexivity.
Qed.

(** A text without trailing blanks keeps none when leading ones go. *)
Lemma rstrip_fixed_lstrip s :
  Py.rstrip_by p s = s -> Py.rstrip_by p (Py.lstrip_by p s) = Py.lstrip_by p s.
Proof.
  induction s as [|c s IH]; intros H; simpl; [reflexivity|].
  destruct (p c) eqn:Ec; [|exact H].
  apply IH. simpl in H.
  destruct (Py.rstrip_by p s) as [|d r] eqn:E.
  - rewrite Ec in H. discriminate.
  - congruence.
Qed.

End Trim.

Lemma strip_idem s : Py.strip (Py.strip s) = Py.strip s.
Proof.
  unfold Py.strip.
  rewrite (rstrip_fixed_lstrip _ _ (rstrip_by_idem _ s)).
  apply lstrip_by_idem.
Qed.

(** ** The invariant of the segmenter's output *)

Section RefineInvariant.

Import StructureExtractor Invariant.

Lemma determine_level_ok text : _determine_level text = "H1" \/ _determine_level text = "H2".
Proof.
  unfold _determine_level.
  destruct (Py.contains_any _ _); [left; reflexivity|].
  destruct (is_label text); right; reflexivity.
Qed.

Lemma refine_loop_invariant sections : forall seen cleaned,
  Forall heading_ok cleaned ->
  unique_texts cleaned ->
  (forall h, h ∈ cleaned -> h_text h ∈ seen) ->
  Forall heading_ok (refine_loop sections seen cleaned) /\
  unique_texts (refine_loop sections seen cleaned).
Proof.
  induction sections as [|sec rest IH]; intros seen cleaned Hok Hnd Hseen.
  - split; assumption.
  - rewrite refine_loop_cons. cbv zeta.
    set (text := Py.strip (sec_text sec)).
    destruct (bool_decide (text ∈ seen)) eqn:Es; [apply IH; assumption|].
    destruct ((3 <=? Py.len text) && (Py.len text <=? 150)) eqn:El;
      [|apply IH; assumption].
    simpl.
    destruct (Re.matches noise_re _); [apply IH; assumption|].
    destruct (_ =? 0)%Z; [apply IH; assumption|].
    apply bool_decide_eq_false_1 in Es.
    apply andb_true_iff in El as [El1 El2]. apply Nat.leb_le in El1, El2.
    apply IH.
    + apply Forall_app. split; [assumption|]. constructor; [|constructor].
      split; [apply strip_idem|]. split; [simpl; fold text; lia|].
      apply determine_level_ok.
    + unfold unique_texts in *. rewrite map_app. simpl.
      apply NoDup_app. split; [assumption|]. split.
      * intros t Ht Ht'. apply list_elem_of_singleton in Ht'. subst t.
        apply list_elem_of_fmap in Ht as (h & Hh & Hin).
        apply Es. fold text in Hh. rewrite Hh. apply Hseen, Hin.
      * apply NoDup_singleton.
    + intros h Hin. apply elem_of_app in Hin as [Hin|Hin].
      * apply elem_of_union_r, Hseen, Hin.
      * apply list_elem_of_singleton in Hin. subst h. simpl.
        apply elem_of_union_l, elem_of_singleton. reflexivity.
Qed.

(** Every heading of the segmenter is trimmed, has 3 to 150 characters and
    level H1 or H2, and no text occurs twice. *)
Lemma refine_sections_invariant sections :
  Forall heading_ok (_refine_sections sections) /\
  unique_texts (_refine_sections sections).
Proof.
  apply refine_loop_invariant.
  - constructor.
  - constructor.
  - intros h Hin. inversion Hin.
Qed.

Lemma fallback_labels_ok text : Forall fallback_ok (_fallback_extract_labels text).
Proof.
  unfold _fallback_extract_labels.
  induction (Py.split_lines text) as [|line lines IH]; simpl; [constructor|].
  destruct (is_label (Py.strip line)) eqn:E; simpl; [|exact IH].
  constructor; [|exact IH].
  split; [reflexivity|]. split; [reflexivity|]. exists line. auto.
Qed.

End RefineInvariant.

(** ** Reasoning about calls *)

Lemma bind_unfold {St A B} (m : M St A) (f : A -> M St B) st :
  (x ← m; f x) st =
  match m st with
  | (Ok a, st') => f a st'
  | (Raise e, st') => (Raise e, st')
  end.
Proof. reflexivity. Qed.

Lemma bind_ok {St A B} (m : M St A) (f : A -> M St B) st a st' :
  m st = (Ok a, st') -> (x ← m; f x) st = f a st'.
Proof. intros H. rewrite bind_unfold, H. reflexivity. Qed.

Lemma bind_inv {St A B} (m : M St A) (f : A -> M St B) st b st' :
  (x ← m; f x) st = (Ok b, st') ->
  exists a s, m st = (Ok a, s) /\ f a s = (Ok b, st').
Proof.
  rewrite bind_unfold. destruct (m st) as [[a|e] s]; intros H.
  - eauto.
  - discriminate.
Qed.

Lemma mret_unfold {St A} (a : A) (st : St) : (mret a : M St A) st = (Ok a, st).
Proof. reflexivity. Qed.

Lemma copy_headings (l : list Heading) :
  map (fun s => {| h_level := h_level s; h_text := h_text s; h_page := h_page s |}) l = l.
Proof.
  induction l as [|[] l IH]; simpl; [reflexivity|]. rewrite IH. reflexivity.
Qed.

(** ** The outline pipeline *)

Section OutlinePipeline.

Import StructureExtractor Invariant.

Context {St : Type}.
Variable P : PDFProcessor St.

(** The pipeline, once the file is loaded and the candidates are read. *)
Lemma extract_structure_loaded path st s1 s2 sections :
  load_pdf P path st = (Ok true, s1) ->
  extract_sections_by_formatting P s1 = (Ok sections, s2) ->
  extract_structure P path st =
  (outline ← match _refine_sections sections with
             | [] => first_page_text ← extract_page_text P 0%Z;
                     mret (_fallback_extract_labels first_page_text)
             | _ :: _ => mret (_refine_sections sections)
             end;
   title ← _extract_title P outline;
   close P;;
   mret {| title := title; outline := outline; error := None |}) s2.
Proof.
  intros Hload Hsec. unfold extract_structure.
  rewrite (bind_ok _ _ _ _ _ Hload). cbn [negb].
  rewrite (bind_ok _ _ _ _ _ Hsec). cbv zeta.
  rewrite copy_headings. reflexivity.
Qed.

Lemma extract_structure_not_loaded path st s1 :
  load_pdf P path st = (Ok false, s1) ->
  extract_structure P path st = (Ok error_structure, s1).
Proof.
  intros Hload. unfold extract_structure.
  rewrite (bind_ok _ _ _ _ _ Hload). reflexivity.
Qed.

Lemma extract_structure_outline path st s1 s2 sections res st' :
  load_pdf P path st = (Ok true, s1) ->
  extract_sections_by_formatting P s1 = (Ok sections, s2) ->
  extract_structure P path st = (Ok res, st') ->
  match _refine_sections sections with
  | [] => exists text s3, extract_page_text P 0%Z s2 = (Ok text, s3) /\
                          outline res = _fallback_extract_labels text
  | _ :: _ => outline res = _refine_sections sections
  end.
Proof.
  intros Hload Hsec Hrun.
  rewrite (extract_structure_loaded _ _ _ _ _ Hload Hsec) in Hrun.
  apply bind_inv in Hrun as (out & s3 & Hout & Hrun).
  apply bind_inv in Hrun as (t & s4 & _ & Hrun).
  apply bind_inv in Hrun as (u & s5 & _ & Hrun).
  rewrite mret_unfold in Hrun. injection Hrun as <- _.
  simpl outline.
  destruct (_refine_sections sections) as [|h hs].
  - apply bind_inv in Hout as (text & s6 & Htext & Hout).
    rewrite mret_unfold in Hout. injection Hout as <- _. eauto.
  - rewrite mret_unfold in Hout. injection Hout as <- _. reflexivity.
Qed.

End OutlinePipeline.

(** C4 (as amended).  Every record of an emitted outline has level H1 or
    H2.  When the segmenter keeps at least one heading, the outline is its
    output: every text is trimmed and 3 to 150 characters long, and no two
    records have the same text.  Otherwise the records come from the label
    scan: they are H2 records of page 1. *)
Theorem C4_outline_invariant {St} (P : PDFProcessor St) path st s1 s2 sections res st' :
  load_pdf P path st = (Ok true, s1) ->
  extract_sections_by_formatting P s1 = (Ok sections, s2) ->
  StructureExtractor.extract_structure P path st = (Ok res, st') ->
  Forall Invariant.level_ok (outline res) /\
  (StructureExtractor._refine_sections sections <> [] ->
   outline res = StructureExtractor._refine_sections sections /\
   Forall Invariant.heading_ok (outline res) /\
   Invariant.unique_texts (outline res)) /\
  (StructureExtractor._refine_sections sections = [] ->
   Forall Invariant.fallback_ok (outline res)).
Proof.
  intros Hload Hsec Hrun.
  pose proof (extract_structure_outline P _ _ _ _ _ _ _ Hload Hsec Hrun) as Hout.
  destruct (refine_sections_invariant sections) as [Hok Hnd].
  destruct (StructureExtractor._refine_sections sections) as [|h hs] eqn:E.
  - destruct Hout as (text & s3 & _ & ->).
    pose proof (fallback_labels_ok text) as Hfb.
    split; [|split; [congruence|intros _; exact Hfb]].
    eapply Forall_impl; [exact Hfb|].
    intros x [Hx _]. right. exact Hx.
  - rewrite Hout. split; [|split; [intros _; auto|discriminate]].
    eapply Forall_impl; [exact Hok|]. intros x (_ & _ & Hx). exact Hx.
Qed.

Lemma C4_outline_invariant_witness :
  let res := {| title := "Quarterly Report 2024";
                outline := [{| h_level := "H2"; h_text := "SUMMARY:"; h_page := 1 |}];
                error := None |} in
  Forall Invariant.level_ok (outline res) /\
  (StructureExtractor._refine_sections (MemoryLoader.pdf_sections Fixtures.report_pdf) <> [] ->
   outline res = StructureExtractor._refine_sections (MemoryLoader.pdf_sections Fixtures.report_pdf) /\
   Forall Invariant.heading_ok (outline res) /\
   Invariant.unique_texts (outline res)) /\
  (StructureExtractor._refine_sections (MemoryLoader.pdf_sections Fixtures.report_pdf) = [] ->
   Forall Invariant.fallback_ok (outline res)).
Proof.
  intros res.
  apply (C4_outline_invariant (MemoryLoader.processor Fixtures.files)
           "in/report.pdf" None (Some Fixtures.report_pdf) (Some Fixtures.report_pdf)
           (MemoryLoader.pdf_sections Fixtures.report_pdf) res None).
  - reflexivity.
  - reflexivity.
  - vm_compute. reflexivity.
Defined.

(** C4 fails as stated on the label scan: the form below has no heading
    candidate, and its outline holds the text "ID" twice (two characters)
    and the text "My Name " (which ends with a blank). *)
Lemma C4_counterexample :
  exists res st',
    StructureExtractor.extract_structure (MemoryLoader.processor Fixtures.files)
      "in/form.pdf" None = (Ok res, st') /\
    outline res = [{| h_level := "H2"; h_text := "ID"; h_page := 1 |};
                   {| h_level := "H2"; h_text := "ID"; h_page := 1 |};
                   {| h_level := "H2"; h_text := "My Name "; h_page := 1 |}] /\
    ~ Forall Invariant.heading_ok (outline res) /\
    ~ Invariant.unique_texts (outline res).
Proof.
  eexists _, _. split; [vm_compute; reflexivity|].
  split; [reflexivity|]. split.
  - intros H. inversion H as [|h l (_ & Hlen & _) _]. vm_compute in Hlen. lia.
  - intros H. inversion H as [|t l Hnin _]. apply Hnin. left.
Qed.

(** The scenario of the form with two labels: no candidate, and a first
    page that reads "Name:" and "Age:". *)
Example labels_scenario :
  StructureExtractor._refine_sections [] = [] /\
  StructureExtractor._fallback_extract_labels
    ("Name:" +:+ Fixtures.nl +:+ "Age:" +:+ Fixtures.nl)
  = [{| h_level := "H2"; h_text := "Name"; h_page := 1 |};
     {| h_level := "H2"; h_text := "Age"; h_page := 1 |}].
Proof. split; reflexivity. Qed.

(** ** Title resolution *)

Section TitleResolution.

Import StructureExtractor Invariant.

Lemma skipped_lines_no_candidate (score : nat -> string -> nat) lines :
  Forall skipped_line lines ->
  List.concat
    (imap (fun i line =>
             if Re.matches title_skip_re (Py.lower line) then []
             else [(line, score i line)]) lines) = [].
Proof.
  revert score. induction lines as [|l lines IH]; intros score H; [reflexivity|].
  inversion H as [|? ? Hl Hls]; subst.
  simpl. unfold skipped_line in Hl. rewrite Hl. simpl.
  apply (IH (fun i => score (S i))), Hls.
Qed.

(** The scan of the first page finds no title when every line it looks
    at is a skipped one. *)
Lemma extract_title_from_text_none text :
  Forall skipped_line (title_lines text) -> _extract_title_from_text text = "".
Proof.
  intros H. unfold _extract_title_from_text, title_candidates.
  rewrite (skipped_lines_no_candidate title_score _ H). reflexivity.
Qed.

End TitleResolution.

(** C7 (as amended).  With an empty metadata title and no title candidate
    from the extractor, the title is the text of the first outline entry
    provided the scan of the first page finds no title line, that is, every
    one of the first 15 lines of 6 to 199 characters begins with a skipped
    prefix; the absence of promotional keywords is not enough. *)
Theorem C7_title_falls_back_to_outline {St} (P : PDFProcessor St)
    st s1 s2 s3 text h outline :
  get_document_info P st = (Ok (Some ""), s1) ->
  find_title_candidates P s1 = (Ok [], s2) ->
  extract_page_text P 0%Z s2 = (Ok text, s3) ->
  Forall Invariant.skipped_line (StructureExtractor.title_lines text) ->
  StructureExtractor._extract_title P (h :: outline) st = (Ok (h_text h), s3).
Proof.
  intros Hinfo Hcand Hpage Hskip. unfold StructureExtractor._extract_title.
  rewrite (bind_ok _ _ _ _ _ Hinfo). cbv zeta.
  change (Py.strip (default "" (Some ""))) with "". cbn [Py.nonempty andb].
  rewrite (bind_ok _ _ _ _ _ Hcand).
  rewrite (bind_ok _ _ _ _ _ Hpage). cbv zeta.
  rewrite (extract_title_from_text_none _ Hskip). reflexivity.
Qed.

Lemma C7_title_falls_back_to_outline_witness :
  StructureExtractor._extract_title (MemoryLoader.processor Fixtures.files)
    [{| h_level := "H2"; h_text := "NOTE:"; h_page := 1 |}] (Some Fixtures.bare_pdf)
  = (Ok "NOTE:", Some Fixtures.bare_pdf).
Proof.
  apply (C7_title_falls_back_to_outline (MemoryLoader.processor Fixtures.files)
           (Some Fixtures.bare_pdf) (Some Fixtures.bare_pdf) (Some Fixtures.bare_pdf)
           (Some Fixtures.bare_pdf)
           ("Page 1 of 3" +:+ Fixtures.nl +:+ "NOTE:" +:+ Fixtures.nl +:+ "Short")
           {| h_level := "H2"; h_text := "NOTE:"; h_page := 1 |} []).
  - reflexivity.
  - reflexivity.
  - reflexivity.
  - vm_compute. repeat constructor.
Defined.

(** C7 fails as stated: the report below has an empty metadata title, no
    title candidate, a first page without promotional keywords and a
    non-empty outline, and its title is the first line of the page, not
    the first outline entry. *)
Lemma C7_counterexample :
  let P := MemoryLoader.processor Fixtures.files in
  let st := Some Fixtures.report_pdf in
  let page := "Quarterly Report 2024" +:+ Fixtures.nl +:+ "SUMMARY:" +:+ Fixtures.nl
              +:+ "All went well." in
  let entry := {| h_level := "H2"; h_text := "SUMMARY:"; h_page := 1 |} in
  get_document_info P st = (Ok (Some ""), st) /\
  find_title_candidates P st = (Ok [], st) /\
  extract_page_text P 0%Z st = (Ok page, st) /\
  Py.contains_any StructureExtractor.promo (Py.lower page) = false /\
  fst (StructureExtractor.extract_structure P "in/report.pdf" None)
  = Ok {| title := "Quarterly Report 2024"; outline := [entry]; error := None |} /\
  StructureExtractor._extract_title P [entry] st = (Ok "Quarterly Report 2024", st) /\
  "Quarterly Report 2024" <> h_text entry.
Proof.
  intros P st page entry.
  repeat (split; [vm_compute; reflexivity|]). discriminate.
Qed.

(** ** Load failures *)

Section LoadFailures.

Import PersonaAnalyzer.

Context {St : Type}.
Variable P : PDFProcessor St.

Lemma try_except_total {S A} (body : M S A) (handler : string -> M S A) :
  (forall e st, exists a st', handler e st = (Ok a, st')) ->
  forall st, exists a st', try_except body handler st = (Ok a, st').
Proof.
  intros Hh st. unfold try_except.
  destruct (body st) as [[a|e] st']; eauto.
Qed.

(** One turn of the loop never raises. *)
Lemma process_file_total pdf_file documents st :
  exists documents' st', process_file P pdf_file documents st = (Ok documents', st').
Proof.
  apply try_except_total. intros e s. eexists _, _. reflexivity.
Qed.

Lemma process_file_not_loaded pdf_file documents st s1 :
  load_pdf P pdf_file (fst st) = (Ok false, s1) ->
  process_file P pdf_file documents st = (Ok documents, (s1, snd st)).
Proof.
  intros H. unfold process_file, try_except.
  rewrite bind_unfold. unfold own at 1. rewrite H. reflexivity.
Qed.

Lemma process_file_load_raises pdf_file documents st e s1 :
  load_pdf P pdf_file (fst st) = (Raise e, s1) ->
  process_file P pdf_file documents st = (Ok documents, (s1, snd st)).
Proof.
  intros H. unfold process_file, try_except.
  rewrite bind_unfold. unfold own at 1. rewrite H. reflexivity.
Qed.

Lemma contents_loop_total pdf_files : forall documents st,
  exists documents' st', contents_loop P pdf_files documents st = (Ok documents', st').
Proof.
  induction pdf_files as [|f fs IH]; intros documents st.
  - eexists _, _. reflexivity.
  - destruct (process_file_total f documents st) as (d1 & s1 & H1).
    cbn [contents_loop]. rewrite (bind_ok _ _ _ _ _ H1). apply IH.
Qed.

Lemma contents_loop_skip f fs documents st r s1 :
  load_pdf P f (fst st) = (r, s1) -> Replay.loaded r = false ->
  contents_loop P (f :: fs) documents st = contents_loop P fs documents (s1, snd st).
Proof.
  intros H Hr. cbn [contents_loop].
  destruct r as [[|]|e]; [discriminate| |].
  - rewrite (bind_ok _ _ _ _ _ (process_file_not_loaded _ _ _ _ H)). reflexivity.
  - rewrite (bind_ok _ _ _ _ _ (process_file_load_raises _ _ _ _ _ H)). reflexivity.
Qed.

Lemma contents_loop_app before after : forall documents st documents1 s1,
  contents_loop P before documents st = (Ok documents1, s1) ->
  contents_loop P (before ++ after) documents st = contents_loop P after documents1 s1.
Proof.
  induction before as [|f fs IH]; intros documents st documents1 s1 H.
  - cbn in H. injection H as <- <-. reflexivity.
  - cbn [contents_loop app] in *.
    apply bind_inv in H as (d & s & Hd & H).
    rewrite (bind_ok _ _ _ _ _ Hd). apply IH, H.
Qed.

End LoadFailures.

(** C8.  When the loader answers that it cannot open the file, the
    single-document pipeline returns the error object and raises nothing;
    in the multi-document pipeline a file that cannot be opened (the load
    answers false, or raises) adds no entry to the documents collected so
    far and the loop goes on with the files that remain; and the loop over
    the files never raises. *)
Theorem C8_load_failure_is_soft {St} (P : PDFProcessor St) :
  (forall path st s1,
     load_pdf P path st = (Ok false, s1) ->
     StructureExtractor.extract_structure P path st = (Ok Invariant.error_structure, s1)) /\
  (forall before f after st documents s1 r s2,
     PersonaAnalyzer._extract_document_contents P before st = (Ok documents, s1) ->
     load_pdf P f (fst s1) = (r, s2) -> Replay.loaded r = false ->
     PersonaAnalyzer._extract_document_contents P (before ++ f :: after) st
     = PersonaAnalyzer.contents_loop P after documents (s2, snd s1)) /\
  (forall pdf_files st, exists documents st',
     PersonaAnalyzer._extract_document_contents P pdf_files st = (Ok documents, st')).
Proof.
  split; [|split].
  - intros path st s1 H. apply extract_structure_not_loaded, H.
  - intros before f after st documents s1 r s2 Hbefore H Hr.
    unfold PersonaAnalyzer._extract_document_contents in *.
    rewrite (contents_loop_app P before (f :: after) [] st documents s1 Hbefore).
    apply (contents_loop_skip P f after documents s1 r s2 H Hr).
  - intros pdf_files st. apply contents_loop_total.
Qed.

Lemma C8_load_failure_is_soft_witness :
  let P := MemoryLoader.processor Fixtures.files in
  StructureExtractor.extract_structure P "in/missing.pdf" None
  = (Ok Invariant.error_structure, None) /\
  (exists documents,
     PersonaAnalyzer._extract_document_contents P ["in/bare.pdf"] (None, None)
     = (Ok documents, (None, None)) /\
     length documents = 1 /\
     PersonaAnalyzer._extract_document_contents P
       (["in/bare.pdf"] ++ "in/missing.pdf" :: ["in/paper.pdf"]) (None, None)
     = PersonaAnalyzer.contents_loop P ["in/paper.pdf"] documents (None, None)) /\
  exists documents st',
    PersonaAnalyzer._extract_document_contents P ["in/missing.pdf"; "in/bare.pdf"] (None, None)
    = (Ok documents, st').
Proof.
  intros P.
  destruct (C8_load_failure_is_soft P) as (H1 & H2 & H3).
  split; [|split].
  - apply (H1 "in/missing.pdf" None None). reflexivity.
  - eexists. split; [vm_compute; reflexivity|]. split; [reflexivity|].
    apply (H2 ["in/bare.pdf"] "in/missing.pdf" ["in/paper.pdf"] (None, None) _
              (None, None) (Ok false) None).
    + vm_compute. reflexivity.
    + reflexivity.
    + reflexivity.
  - apply H3.
Defined.

(** ** Determinism of the outline pipeline *)

Section Determinism.

Import StructureExtractor Replay.

Context {St : Type}.
Variable P : PDFProcessor St.
Variable path : string.
Variables ready opened : St -> Prop.
Variable a : Answers.
Hypothesis HR : Replayable P path ready opened a.

Abbreviation agree := (Replay.agree ready).
Abbreviation agree_open := (Replay.agree_open ready opened).

Lemma open_is_ready st : opened st -> ready st.
Proof. apply (opened_ready _ _ _ _ _ HR). Qed.

Lemma agree_open_call {A : Type} (m : M St A) (r : result A) s1 s2 :
  (forall st, opened st -> exists st', m st = (r, st') /\ opened st') ->
  opened s1 -> opened s2 -> agree_open m s1 s2.
Proof.
  intros H H1 H2.
  destruct (H _ H1) as (t1 & E1 & O1), (H _ H2) as (t2 & E2 & O2).
  unfold Replay.agree_open. rewrite E1, E2. simpl. split; [reflexivity|].
  destruct r; split; auto using open_is_ready.
Qed.

Lemma agree_open_ret {A : Type} (x : A) s1 s2 :
  opened s1 -> opened s2 -> agree_open (mret x) s1 s2.
Proof. intros H1 H2. split; [reflexivity|]. simpl. auto. Qed.

Lemma agree_open_bind {A B : Type} (m : M St A) (f : A -> M St B) s1 s2 :
  agree_open m s1 s2 ->
  (forall x t1 t2, opened t1 -> opened t2 -> agree_open (f x) t1 t2) ->
  agree_open (x ← m; f x) s1 s2.
Proof.
  intros [Hm Hs] Hf. unfold Replay.agree_open. rewrite !bind_unfold.
  destruct (m s1) as [r1 t1], (m s2) as [r2 t2]. simpl in Hm, Hs. subst r2.
  destruct r1 as [x|e].
  - destruct Hs as [O1 O2]. apply Hf; assumption.
  - simpl. auto.
Qed.

Lemma extract_title_agree outline s1 s2 :
  opened s1 -> opened s2 -> agree_open (_extract_title P outline) s1 s2.
Proof.
  intros H1 H2. unfold _extract_title.
  apply agree_open_bind; [apply (agree_open_call _ _ _ _ (info_same _ _ _ _ _ HR)); auto|].
  intros info t1 t2 O1 O2. cbv zeta.
  destruct (_ && _); [apply agree_open_ret; auto|].
  apply agree_open_bind;
    [apply (agree_open_call _ _ _ _ (candidates_same _ _ _ _ _ HR)); auto|].
  intros cands u1 u2 O3 O4.
  destruct cands; [|apply agree_open_ret; auto].
  apply agree_open_bind; [apply (agree_open_call _ _ _ _ (page0_same _ _ _ _ _ HR)); auto|].
  intros text v1 v2 O5 O6. cbv zeta.
  destruct (Py.nonempty _); [apply agree_open_ret; auto|].
  destruct outline; apply agree_open_ret; auto.
Qed.

Lemma agree_of_open {A : Type} (m : M St A) s1 s2 :
  agree_open m s1 s2 -> agree m s1 s2.
Proof.
  intros [E H]. split; [exact E|].
  destruct (fst (m s1)); destruct H; auto using open_is_ready.
Qed.

Lemma close_agree {A : Type} (x : A) s1 s2 :
  opened s1 -> opened s2 -> agree (close P;; mret x) s1 s2.
Proof.
  intros H1 H2.
  destruct (close_same _ _ _ _ _ HR _ H1) as (t1 & E1 & R1).
  destruct (close_same _ _ _ _ _ HR _ H2) as (t2 & E2 & R2).
  unfold Replay.agree. rewrite !bind_unfold, E1, E2.
  destruct (a_close a); simpl; auto.
Qed.

Lemma agree_bind_open {A B : Type} (m : M St A) (f : A -> M St B) s1 s2 :
  agree_open m s1 s2 ->
  (forall x t1 t2, opened t1 -> opened t2 -> agree (f x) t1 t2) ->
  agree (x ← m; f x) s1 s2.
Proof.
  intros [Hm Hs] Hf. unfold Replay.agree. rewrite !bind_unfold.
  destruct (m s1) as [r1 t1], (m s2) as [r2 t2]. simpl in Hm, Hs. subst r2.
  destruct r1 as [x|e].
  - destruct Hs as [O1 O2]. apply Hf; assumption.
  - simpl. auto.
Qed.

Lemma extract_structure_agree s1 s2 :
  ready s1 -> ready s2 -> agree (extract_structure P path) s1 s2.
Proof.
  intros H1 H2. unfold extract_structure.
  destruct (load_same _ _ _ _ _ HR _ H1) as (t1 & E1 & R1).
  destruct (load_same _ _ _ _ _ HR _ H2) as (t2 & E2 & R2).
  unfold Replay.agree. rewrite !bind_unfold, E1, E2.
  destruct (a_load a) as [[|]|e]; simpl in R1, R2; [|simpl; auto..].
  cbn [negb].
  apply agree_bind_open;
    [apply (agree_open_call _ _ _ _ (sections_same _ _ _ _ _ HR)); auto|].
  intros sections u1 u2 O1 O2. cbv zeta.
  apply agree_bind_open.
  - destruct (map _ _); [|apply agree_open_ret; auto].
    apply agree_open_bind;
      [apply (agree_open_call _ _ _ _ (page0_same _ _ _ _ _ HR)); auto|].
    intros text v1 v2 O3 O4. apply agree_open_ret; auto.
  - intros outline v1 v2 O3 O4.
    apply agree_bind_open; [apply extract_title_agree; auto|].
    intros title w1 w2 O5 O6. apply close_agree; auto.
Qed.

End Determinism.

Lemma memory_loader_replayable files path d :
  MemoryLoader.lookup_file files path = Some d ->
  Replay.Replayable (MemoryLoader.processor files) path
    (fun _ => True) (fun st => st = Some d) (Replay.answers_of d).
Proof.
  intros H. split; simpl.
  - auto.
  - intros st _. rewrite H. eauto.
  - intros st ->. eauto.
  - intros st ->. eauto.
  - intros st ->. eauto.
  - intros st ->. eauto.
  - intros st _. eauto.
Qed.

(** C10.  With a loader that answers the same on each call, the result of
    the outline pipeline does not depend on the state of the processor: two
    runs from any two states in which the file can be loaded return the
    same object, and so do a run and a second run that starts where the
    first one stopped. *)
Theorem C10_outline_pipeline_deterministic {St} (P : PDFProcessor St) path
    (ready opened : St -> Prop) (a : Replay.Answers) :
  Replay.Replayable P path ready opened a ->
  (forall s1 s2, ready s1 -> ready s2 ->
     fst (StructureExtractor.extract_structure P path s1)
     = fst (StructureExtractor.extract_structure P path s2)) /\
  (forall s1, ready s1 ->
     fst (StructureExtractor.extract_structure P path
            (snd (StructureExtractor.extract_structure P path s1)))
     = fst (StructureExtractor.extract_structure P path s1)).
Proof.
  intros HR. split.
  - intros s1 s2 H1 H2. apply (extract_structure_agree P path ready opened a HR s1 s2 H1 H2).
  - intros s1 H1.
    destruct (extract_structure_agree P path ready opened a HR s1 s1 H1 H1) as (_ & R & _).
    apply (extract_structure_agree P path ready opened a HR _ s1 R H1).
Qed.

Lemma C10_outline_pipeline_deterministic_witness :
  let P := MemoryLoader.processor Fixtures.files in
  let run := StructureExtractor.extract_structure P "in/report.pdf" in
  fst (run None) = fst (run (Some Fixtures.form_pdf)) /\
  fst (run (snd (run None))) = fst (run None).
Proof.
  intros P run.
  destruct (C10_outline_pipeline_deterministic P "in/report.pdf"
              (fun _ => True) (fun st => st = Some Fixtures.report_pdf)
              (Replay.answers_of Fixtures.report_pdf)
              (memory_loader_replayable Fixtures.files "in/report.pdf"
                 Fixtures.report_pdf eq_refl)) as [H1 H2].
  split.
  - apply H1; exact I.
  - apply H2; exact I.
Defined.

(** ** Section expansion *)

Section SectionExpansion.

Import PersonaAnalyzer Expansion.

Lemma find_index_some {A : Type} (p : A -> bool) l j :
  find_index p l = Some j ->
  (exists x, l !! j = Some x /\ p x = true) /\
  (forall k x, k < j -> l !! k = Some x -> p x = false).
Proof.
  revert j. induction l as [|y l IH]; intros j H; simpl in H; [discriminate|].
  destruct (p y) eqn:E.
  - injection H as <-. split; [exists y; auto|]. intros k x Hk. lia.
  - destruct (find_index p l) as [j'|] eqn:E'; [|discriminate].
    injection H as <-. destruct (IH j' eq_refl) as [Hx Hbefore].
    split; [exact Hx|].
    intros [|k] x Hk Hl; simpl in Hl.
    + congruence.
    + apply (Hbefore k); [lia|exact Hl].
Qed.

Lemma find_index_none {A : Type} (p : A -> bool) l :
  find_index p l = None -> forall k x, l !! k = Some x -> p x = false.
Proof.
  induction l as [|y l IH]; intros H k x Hl; [destruct k; discriminate|].
  simpl in H. destruct (p y) eqn:E; [discriminate|].
  destruct (find_index p l) eqn:E'; [discriminate|].
  destruct k as [|k]; simpl in Hl; [congruence|]. apply (IH eq_refl k), Hl.
Qed.

(** The test of the loop is the boundary test: the guard of
    [_looks_like_heading] adds the upper bound of 150 characters. *)
Lemma ends_section_boundary line : ends_section line = boundary line.
Proof.
  unfold ends_section, boundary, _looks_like_heading, shape. cbv zeta.
  set (n := Py.len (Py.strip line)).
  destruct (3 <? n) eqn:E3, (n <? 3) eqn:El, (150 <? n) eqn:Eu, (n <=? 150) eqn:Ele;
    simpl; try reflexivity;
    repeat match goal with
           | H : (_ <? _) = true |- _ => apply Nat.ltb_lt in H
           | H : (_ <? _) = false |- _ => apply Nat.ltb_ge in H
           | H : (_ <=? _) = true |- _ => apply Nat.leb_le in H
           | H : (_ <=? _) = false |- _ => apply Nat.leb_gt in H
           end; lia.
Qed.

Lemma extract_section_content_unfold page_text section_title i all :
  _extract_section_content page_text section_title i all =
  let lines := Py.split_lines page_text in
  match start_of lines section_title with
  | None => ""
  | Some start_line =>
      let end_line :=
        match find_index ends_section (drop (S start_line) lines) with
        | Some j => S start_line + j
        | None => length lines
        end in
      Py.strip (Py.join (String Py.newline "") (between lines start_line end_line))
  end.
Proof. reflexivity. Qed.

End SectionExpansion.

(** C9 (as amended).  When the title is found on line [start_line], the
    end boundary is the first later line of the page whose trimmed text has
    more than 3 and at most 150 characters and one of the three heading
    shapes, or the end of the page when there is none; the content is the
    lines strictly between the two, joined by newlines, with the white
    space around the whole removed. *)
Theorem C9_content_span page_text section_title i all start_line :
  let lines := Py.split_lines page_text in
  Expansion.start_of lines section_title = Some start_line ->
  exists end_line,
    S start_line <= end_line <= length lines /\
    (forall j line, S start_line <= j < end_line -> lines !! j = Some line ->
       Expansion.boundary line = false) /\
    (end_line < length lines ->
       exists line, lines !! end_line = Some line /\ Expansion.boundary line = true) /\
    PersonaAnalyzer._extract_section_content page_text section_title i all
    = Py.strip (Py.join (String Py.newline "")
                        (Expansion.between lines start_line end_line)).
Proof.
  intros lines Hstart.
  assert (Hlt : start_line < length lines).
  { destruct (find_index_some _ _ _ Hstart) as [(x & Hx & _) _].
    apply lookup_lt_Some in Hx. exact Hx. }
  rewrite extract_section_content_unfold. cbv zeta. fold lines. rewrite Hstart.
  destruct (PersonaAnalyzer.find_index PersonaAnalyzer.ends_section
              (drop (S start_line) lines)) as [j|] eqn:E.
  - destruct (find_index_some _ _ _ E) as [(x & Hx & Hpx) Hbefore].
    rewrite lookup_drop in Hx.
    exists (S start_line + j). split; [|split; [|split]].
    + apply lookup_lt_Some in Hx. lia.
    + intros k line Hk Hline. rewrite <- ends_section_boundary.
      apply (Hbefore (k - S start_line)); [lia|].
      rewrite lookup_drop. replace (S start_line + (k - S start_line)) with k by lia.
      exact Hline.
    + intros _. exists x. rewrite <- ends_section_boundary. auto.
    + reflexivity.
  - exists (length lines). split; [|split; [|split]].
    + lia.
    + intros k line Hk Hline. rewrite <- ends_section_boundary.
      apply (find_index_none _ _ E (k - S start_line)).
      rewrite lookup_drop. replace (S start_line + (k - S start_line)) with k by lia.
      exact Hline.
    + lia.
    + reflexivity.
Qed.

Lemma C9_content_span_witness :
  exists end_line,
    1 <= end_line <= 4 /\
    (forall j line, 1 <= j < end_line ->
       Py.split_lines Expansion.page !! j = Some line -> Expansion.boundary line = false) /\
    (end_line < 4 ->
       exists line, Py.split_lines Expansion.page !! end_line = Some line /\
                    Expansion.boundary line = true) /\
    PersonaAnalyzer._extract_section_content Expansion.page "Results" 0 []
    = Py.strip (Py.join (String Py.newline "")
                        (Expansion.between (Py.split_lines Expansion.page) 0 end_line)).
Proof.
  apply (C9_content_span Expansion.page "Results" 0 [] 0). reflexivity.
Defined.

(** C9 fails as stated: on the page below the line of 151 capitals is
    longer than 3 characters and has the all-capitals shape, so the claim
    ends the section there; the code reads on to the end of the page. *)
Lemma C9_counterexample :
  let nl := String Py.newline "" in
  Py.split_lines Expansion.page = ["Results"; "body"; Expansion.long_caps; "more"] /\
  (3 <? Py.len (Py.strip Expansion.long_caps)) = true /\
  Re.matches PersonaAnalyzer.allcaps_re (Py.strip Expansion.long_caps) = true /\
  Expansion.claimed_content Expansion.page "Results" = "body" /\
  PersonaAnalyzer._extract_section_content Expansion.page "Results" 0 []
  = "body" +:+ nl +:+ Expansion.long_caps +:+ nl +:+ "more" /\
  PersonaAnalyzer._extract_section_content Expansion.page "Results" 0 []
  <> Expansion.claimed_content Expansion.page "Results".
Proof.
  intros nl. repeat (split; [vm_compute; reflexivity|]).
  vm_compute. discriminate.
Qed.

(** ** Signs of rounded results *)

Section Rounding.
Variables prec emax : Z.

Lemma shr_1_nonneg mrs : (0 <= shr_m mrs)%Z -> (0 <= shr_m (shr_1 mrs))%Z.
Proof.
  destruct mrs as [m r s]. simpl. intros H.
  destruct m as [|[p|p|]|p]; simpl; lia.
Qed.

Lemma iter_pos_shr_1_nonneg n : forall mrs,
  (0 <= shr_m mrs)%Z -> (0 <= shr_m (SpecFloat.iter_pos shr_1 n mrs))%Z.
Proof.
  induction n as [n IH|n IH|]; intros mrs H; simpl.
  - apply IH, IH, shr_1_nonneg, H.
  - apply IH, IH, H.
  - apply shr_1_nonneg, H.
Qed.

Lemma shr_record_of_loc_m m l : shr_m (shr_record_of_loc m l) = m.
Proof. destruct l as [|[]]; reflexivity. Qed.

Lemma shr_fexp_nonneg m e l :
  (0 <= m)%Z -> (0 <= shr_m (fst (shr_fexp prec emax m e l)))%Z.
Proof.
  intros H. unfold shr_fexp, shr.
  destruct (fexp prec emax (Zdigits2 m + e) - e)%Z; simpl;
    try (rewrite shr_record_of_loc_m; exact H).
  apply iter_pos_shr_1_nonneg. rewrite shr_record_of_loc_m. exact H.
Qed.

Lemma round_nearest_even_nonneg m l :
  (0 <= m)%Z -> (0 <= round_nearest_even m l)%Z.
Proof.
  intros H. destruct l as [|[]]; simpl; try lia.
  destruct (Z.even m); lia.
Qed.

Lemma binary_round_aux_nonneg m e l :
  (0 <= m)%Z -> F64.nonneg (binary_round_aux prec emax false m e l).
Proof.
  intros H. unfold binary_round_aux.
  pose proof (shr_fexp_nonneg m e l H) as H1.
  destruct (shr_fexp prec emax m e l) as [mrs' e']. simpl in H1.
  pose proof (shr_fexp_nonneg _ e' loc_Exact
                (round_nearest_even_nonneg _ (loc_of_shr_record mrs') H1)) as H2.
  destruct (shr_fexp prec emax _ e' loc_Exact) as [mrs'' e'']. simpl in H2.
  destruct (shr_m mrs'') as [|p|p]; simpl; [exact I| |lia].
  destruct (e'' <=? emax - prec)%Z; exact I.
Qed.

Lemma binary_round_nonneg m e : F64.nonneg (binary_round prec emax false m e).
Proof.
  unfold binary_round.
  destruct (shl_align m e _) as [mz ez]. apply binary_round_aux_nonneg. lia.
Qed.

Lemma binary_normalize_nonneg m e :
  (0 <= m)%Z -> F64.nonneg (binary_normalize prec emax m e false).
Proof.
  intros H. destruct m as [|p|p]; simpl; [exact I|apply binary_round_nonneg|lia].
Qed.

Lemma SFadd_nonneg x y : F64.nonneg x -> F64.nonneg y -> F64.nonneg (SFadd prec emax x y).
Proof.
  destruct x as [[]|[]| |[] mx ex], y as [[]|[]| |[] my ey]; simpl; try tauto.
  intros _ _. apply binary_round_nonneg.
Qed.

Lemma SFmul_nonneg_finite x my ey :
  F64.nonneg x -> F64.nonneg (SFmul prec emax x (S754_finite false my ey)).
Proof.
  destruct x as [[]|[]| |[] mx ex]; simpl; try tauto.
  intros _. apply binary_round_aux_nonneg. lia.
Qed.

Lemma SFmul_finite_nonneg mx ex y :
  F64.nonneg y -> F64.nonneg (SFmul prec emax (S754_finite false mx ex) y).
Proof.
  destruct y as [[]|[]| |[] my ey]; simpl; try tauto.
  intros _. apply binary_round_aux_nonneg. lia.
Qed.

Lemma SFdiv_core_nonneg m1 e1 m2 e2 :
  (0 <= m1)%Z -> (0 < m2)%Z ->
  (0 <= fst (fst (SFdiv_core_binary prec emax m1 e1 m2 e2)))%Z.
Proof.
  intros H1 H2. unfold SFdiv_core_binary.
  set (s := (e1 - e2 - _)%Z).
  set (m' := match s with Zpos _ => Z.shiftl m1 s | Z0 => m1 | Zneg _ => 0%Z end).
  assert (Hm' : (0 <= m')%Z).
  { unfold m'. destruct s; try lia. apply Z.shiftl_nonneg. exact H1. }
  pose proof (Z.div_eucl_eq m' m2 ltac:(lia)) as Heq.
  pose proof (Z.mod_pos_bound m' m2 H2) as Hr.
  unfold Z.modulo in Hr.
  destruct (Z.div_eucl m' m2) as [q r]. simpl.
  nia.
Qed.

Lemma SFdiv_finite_nonneg mx ex my ey :
  F64.nonneg (SFdiv prec emax (S754_finite false mx ex) (S754_finite false my ey)).
Proof.
  simpl.
  pose proof (SFdiv_core_nonneg (Zpos mx) ex (Zpos my) ey ltac:(lia) ltac:(lia)) as H.
  destruct (SFdiv_core_binary prec emax (Z.pos mx) ex (Z.pos my) ey) as [[mz ez] lz].
  simpl in H. apply binary_round_aux_nonneg, H.
Qed.

End Rounding.

Lemma nonneg_leb_zero x : F64.nonneg x -> SFleb (S754_zero false) x = true.
Proof. destruct x as [[]|[]| |[] m e]; simpl; tauto || reflexivity. Qed.

Lemma nonneg_not_ltb_leb x m e :
  F64.nonneg x -> SFltb (S754_finite false m e) x = false -> SFleb x (S754_finite false m e) = true.
Proof.
  destruct x as [[]|[]| |[] mx ex]; simpl; try tauto; try reflexivity; try discriminate.
  intros _. unfold SFltb, SFleb. simpl.
  rewrite (Z.compare_antisym e ex).
  destruct (e ?= ex)%Z; simpl; try reflexivity; try discriminate.
  change (Pos.compare_cont Eq mx m) with (Pos.compare_cont (CompOpp Eq) mx m).
  rewrite <- (Pos.compare_cont_antisym m mx Eq).
  destruct (Pos.compare_cont Eq m mx); simpl; try reflexivity; discriminate.
Qed.

Section FloatFacts.

Import F64.

Lemma exact_int_max_pos n : exists p, exact_int (Z.max n 1) = S754_finite false p 0.
Proof.
  destruct (Z.max n 1) as [|p|p] eqn:E; [lia| |lia]. exists p. reflexivity.
Qed.

Lemma truediv_nonneg a b : (0 <= a)%Z -> nonneg (truediv a (Z.max b 1)).
Proof.
  intros Ha. unfold truediv. destruct (exact_int_max_pos b) as [p ->].
  destruct a as [|q|q]; [exact I| |lia].
  apply SFdiv_finite_nonneg.
Qed.

Lemma of_int_nonneg n : (0 <= n)%Z -> nonneg (of_int n).
Proof. apply binary_normalize_nonneg. Qed.

Lemma add_nonneg x y : nonneg x -> nonneg y -> nonneg (add x y).
Proof. apply SFadd_nonneg. Qed.

Lemma min_nonneg x y : nonneg x -> nonneg y -> nonneg (min x y).
Proof. intros Hx Hy. unfold min. destruct (ltb y x); assumption. Qed.

(** [min(x, c) <= c] for a finite positive [c]. *)
Lemma min_leb x m e :
  nonneg x -> leb (min x (S754_finite false m e)) (S754_finite false m e) = true.
Proof.
  intros Hx. unfold min. destruct (ltb _ x) eqn:E.
  - unfold leb, SFleb. simpl. rewrite Z.compare_refl.
    change (Pos.compare_cont Eq m m) with (Pos.compare m m).
    rewrite Pos.compare_refl. reflexivity.
  - apply nonneg_not_ltb_leb; assumption.
Qed.

End FloatFacts.

(** The constants are the doubles nearest to the decimal literals: each
    has a significand of 53 bits and lies within half a unit in the last
    place of the decimal value. *)
Example literals_are_nearest :
  F64.nearest 6 10 F64.c0_6 /\ F64.nearest 4 10 F64.c0_4 /\
  F64.nearest 3 10 F64.c0_3 /\ F64.nearest 1 10 F64.c0_1 /\
  F64.nearest 5 100 F64.c0_05.
Proof. vm_compute. repeat split; intros; discriminate. Qed.

(** ** The relevance score *)

Section Scorer.

Import PersonaAnalyzer.

Lemma count_terms_nonneg terms text : (0 <= count_terms terms text)%Z.
Proof. unfold count_terms. lia. Qed.

Lemma term_bonus_nonneg terms text :
  F64.nonneg (F64.mul (F64.of_int (count_terms terms text)) F64.c0_05).
Proof.
  apply SFmul_nonneg_finite, of_int_nonneg, count_terms_nonneg.
Qed.

Lemma raw_bonus_nonneg persona text : F64.nonneg (raw_bonus persona text).
Proof.
  unfold raw_bonus. cbv zeta.
  repeat match goal with
         | |- F64.nonneg (if ?b then _ else _) => destruct b
         | |- F64.nonneg (F64.add _ _) => apply add_nonneg
         | |- F64.nonneg (F64.mul _ _) => apply term_bonus_nonneg
         | |- F64.nonneg F64.zero => exact I
         end.
Qed.

Lemma domain_bonuses_nonneg persona text : F64.nonneg (_get_domain_bonuses persona text).
Proof. apply min_nonneg; [apply raw_bonus_nonneg|exact I]. Qed.

Lemma overlap_score_nonneg keywords section_keywords :
  F64.nonneg (overlap_score keywords section_keywords).
Proof. apply truediv_nonneg. lia. Qed.

Lemma uncapped_score_nonneg persona section pk jk :
  F64.nonneg (uncapped_score persona section pk jk).
Proof.
  unfold uncapped_score. cbv zeta.
  apply add_nonneg; [apply add_nonneg|apply domain_bonuses_nonneg];
    apply SFmul_finite_nonneg, overlap_score_nonneg.
Qed.

Lemma relevance_score_nonneg persona section pk jk :
  F64.nonneg (_calculate_relevance_score persona section pk jk).
Proof. apply min_nonneg; [apply uncapped_score_nonneg|exact I]. Qed.

End Scorer.

(** C3.  For every section, persona text and pair of keyword sets, the
    relevance score is a float between 0.0 and 1.0; and the domain bonus is
    at most 0.3 for every persona and text, however many of the three
    blocks add to it. *)
Theorem C3_score_in_unit_interval persona section
    (persona_keywords job_keywords : gset string) text :
  F64.in_unit (PersonaAnalyzer._calculate_relevance_score persona section
                 persona_keywords job_keywords) /\
  F64.leb F64.zero (PersonaAnalyzer._get_domain_bonuses persona text) = true /\
  F64.leb (PersonaAnalyzer._get_domain_bonuses persona text) F64.c0_3 = true.
Proof.
  split; [split|split].
  - apply nonneg_leb_zero, relevance_score_nonneg.
  - apply min_leb, uncapped_score_nonneg.
  - apply nonneg_leb_zero, domain_bonuses_nonneg.
  - apply min_leb, raw_bonus_nonneg.
Qed.

(** With a persona that triggers all three blocks the raw bonus is
    8 * 0.05, above the cap, and the bonus returned is 0.3. *)
Example bonus_is_capped :
  let persona := "PhD student, business analyst" in
  let text := "methodology analysis results data revenue profit concept theory" in
  F64.ltb F64.c0_3 (PersonaAnalyzer.raw_bonus persona text) = true /\
  PersonaAnalyzer._get_domain_bonuses persona text = F64.c0_3.
Proof. vm_compute. split; reflexivity. Qed.

(** The scenario of the research persona: the heading "Methodology" with
    a content that names three research terms scores 4 * 0.05 = 0.2. *)
Example research_scenario :
  let section := {| es_text := "Methodology"; es_page := 1;
                    es_content := Some "results analysis hypothesis" |} in
  PersonaAnalyzer._calculate_relevance_score "PhD researcher" section
    (PersonaAnalyzer._extract_keywords "PhD researcher")
    (PersonaAnalyzer._extract_keywords "literature review")
  = F64.decimal 2 10.
Proof. vm_compute. reflexivity. Qed.

(** ** Stable descending sort *)

Section SortFacts.

Context {A K : Type}.
Variable ltb : K -> K -> bool.
Variable key : A -> K.
Variable D : K -> Prop.

Hypothesis ltb_asym : forall a b, ltb a b = true -> ltb b a = false.
Hypothesis ltb_negtrans : forall a b c, D a -> D b -> D c ->
  ltb a b = false -> ltb b c = false -> ltb a c = false.

Let ge (x y : A) : Prop := ltb (key x) (key y) = false.
Let tied (x y : A) : bool :=
  negb (ltb (key x) (key y)) && negb (ltb (key y) (key x)).

Lemma insert_desc_perm x l : Permutation (insert_desc ltb key x l) (x :: l).
Proof.
  induction l as [|y l IH]; simpl; [reflexivity|].
  destruct (ltb (key x) (key y)); [|reflexivity].
  rewrite IH. apply perm_swap.
Qed.

Lemma sort_desc_perm l : Permutation (sort_desc ltb key l) l.
Proof.
  induction l as [|x l IH]; simpl; [reflexivity|].
  rewrite insert_desc_perm. constructor. exact IH.
Qed.






Lemma ltb_irrefl a : ltb a a = false.
Proof. destruct (ltb a a) eqn:E; [|reflexivity]. rewrite (ltb_asym _ _ E) in E. discriminate. Qed.

Lemma head_ge a l z : StronglySorted ge (a :: l) -> z ∈ a :: l -> ge a z.
Proof.
  intros Hs Hz. inversion Hs as [|? ? _ Hall]; subst.
  apply elem_of_cons in Hz as [->|Hz]; [apply ltb_irrefl|].
  apply (proj1 (Forall_forall (ge a) l) Hall z Hz).
Qed.

(** A list has one sorted and stable rearrangement only. *)
Lemma stable_sort_unique l1 : forall l2,
  Permutation l1 l2 ->
  StronglySorted ge l1 -> StronglySorted ge l2 ->
  (forall x, List.filter (tied x) l1 = List.filter (tied x) l2) ->
  l1 = l2.
Proof.
  induction l1 as [|a l1 IH]; intros l2 Hp H1 H2 Hst.
  - apply Permutation_nil in Hp. auto.
  - destruct l2 as [|b l2]; [symmetry in Hp; apply Permutation_nil_cons in Hp; contradiction|].
    assert (Hab : ge a b).
    { apply (head_ge a l1 b H1). rewrite Hp. left. }
    assert (Hba : ge b a).
    { apply (head_ge b l2 a H2). rewrite <- Hp. left. }
    assert (E : a = b).
    { assert (Haa : tied a a = true) by (unfold tied; rewrite ltb_irrefl; reflexivity).
      assert (Htb : tied a b = true) by (unfold tied; rewrite Hab, Hba; reflexivity).
      pose proof (Hst a) as Ha. cbn [List.filter] in Ha.
      rewrite Haa, Htb in Ha. congruence. }
    subst b. f_equal. apply IH.
    + apply (Permutation_cons_inv Hp).
    + inversion H1; assumption.
    + inversion H2; assumption.
    + intros x. specialize (Hst x). cbn [List.filter] in Hst.
      destruct (tied x a); congruence.
Qed.
End SortFacts.

(** ** The order of non-negative floats *)


Lemma SFltb_finite_false ma ea mb eb :
  SFltb (S754_finite false ma ea) (S754_finite false mb eb) = false <->
  (eb < ea)%Z \/ (ea = eb /\ (mb <= ma)%positive).
Proof.
  unfold SFltb. simpl.
  change (Pos.compare_cont Eq ma mb) with (Pos.compare ma mb).
  destruct (Z.compare_spec ea eb) as [->|H|H].
  - destruct (Pos.compare_spec ma mb) as [->|H|H]; split; intros H';
      try discriminate; try reflexivity; try lia.
  - split; intros H'; [discriminate|lia].
  - split; intros H'; [lia|reflexivity].
Qed.

Lemma SFltb_negtrans a b c :
  F64.nonneg a -> F64.nonneg b -> F64.nonneg c ->
  SFltb a b = false -> SFltb b c = false -> SFltb a c = false.
Proof.
  destruct a as [[]|[]| |[] ma ea]; simpl; try tauto;
  destruct b as [[]|[]| |[] mb eb]; simpl; try tauto;
  destruct c as [[]|[]| |[] mc ec]; simpl; try tauto;
  intros _ _ _; try (intros; reflexivity); try (intros; discriminate).
  rewrite !SFltb_finite_false. lia.
Qed.

(** ** The cross-document ranker *)

Section Ranker.

Import PersonaAnalyzer Ranking.

Lemma rank_key_entry doc section score : rank_key (entry doc section score) = score.
Proof. reflexivity. Qed.

(** The list built by the two loops is the list of all entries, filtered
    by the threshold. *)
Lemma relevant_sections_kept persona job_to_be_done documents :
  flat_map
    (fun doc =>
       flat_map
         (fun section =>
            let relevance_score :=
              _calculate_relevance_score persona section
                (_extract_keywords persona) (_extract_keywords job_to_be_done) in
            if F64.ltb F64.c0_1 relevance_score
            then [entry doc section relevance_score]
            else [])
         (sections (content doc)))
    documents
  = kept persona job_to_be_done documents.
Proof.
  unfold kept, all_entries. cbv zeta.
  induction documents as [|doc docs IH]; [reflexivity|].
  cbn [flat_map]. rewrite List.filter_app, <- IH. f_equal.
  induction (sections (content doc)) as [|section secs IHs]; [reflexivity|].
  cbn [flat_map map List.filter]. rewrite rank_key_entry, <- IHs.
  destruct (F64.ltb _ _); reflexivity.
Qed.



Lemma imap_set_rank_from k (l : list Ranked) :
  map importance_rank (imap (fun i => set_rank (k + i)) l)
  = map (fun i => PyInt (Z.of_nat i)) (seq (S k) (length l)).
Proof.
  revert k. induction l as [|x l IH]; intros k; [reflexivity|].
  cbn [imap map length seq]. f_equal.
  - cbn. f_equal. lia.
  - rewrite <- (IH (S k)). f_equal. apply imap_ext. intros i y _. cbn.
    f_equal. f_equal. lia.
Qed.

Lemma imap_set_rank_ranks (l : list Ranked) :
  map importance_rank (imap set_rank l) = ranks (length l).
Proof. apply (imap_set_rank_from 0). Qed.

End Ranker.

(** The ranker numbers a sorted rearrangement of the kept entries. *)
Lemma ranker_sorts_kept persona job_to_be_done documents :
  exists sorted,
    Permutation sorted (Ranking.kept persona job_to_be_done documents) /\
    PersonaAnalyzer._extract_relevant_sections persona job_to_be_done documents
    = imap PersonaAnalyzer.set_rank sorted.
Proof.
  exists (sort_desc F64.ltb PersonaAnalyzer.rank_key
            (Ranking.kept persona job_to_be_done documents)).
  split; [apply sort_desc_perm|].
  unfold PersonaAnalyzer._extract_relevant_sections. cbv zeta.
  rewrite relevant_sections_kept. reflexivity.
Qed.


(** ** What the relevance pipeline scores *)

(** [path_name] on some paths, with the answers of [Path(p).name]. *)
Example path_name_examples :
  map path_name ["in/paper.pdf"; "paper.pdf"; "a/b/"; "a//b"; "a/."; "./a"; "a/.."; "."; "/"; ""]
  = ["paper.pdf"; "paper.pdf"; "b"; "b"; "a"; "a"; ".."; ""; ""; ""].
Proof. vm_compute. reflexivity. Qed.

Section ScoredSections.

Import PersonaAnalyzer Provenance.

Context {St : Type}.
Variable P : PDFProcessor St.

Lemma mapM_inv {S A B} (f : A -> M S B) l : forall st ys st',
  mapM f l st = (Ok ys, st') ->
  Forall2 (fun x y => exists s s', f x s = (Ok y, s')) l ys.
Proof.
  induction l as [|x l IH]; intros st ys st' H.
  - cbn in H. injection H as <- _. constructor.
  - cbn [mapM] in H.
    apply bind_inv in H as (y & s1 & Hy & H).
    apply bind_inv in H as (ys' & s2 & Hys & H).
    rewrite mret_unfold in H. injection H as <- _.
    constructor; [eauto|]. apply (IH _ _ _ Hys).
Qed.

Lemma enrich_one_copy sections i section st e st' :
  enrich_one P sections i section st = (Ok e, st') -> copy_of section e.
Proof.
  unfold enrich_one. cbv zeta. intros H.
  apply bind_inv in H as (n & s1 & _ & H).
  destruct (_ <? n)%Z.
  - apply bind_inv in H as (t & s2 & _ & H).
    rewrite mret_unfold in H. injection H as <- _. split; reflexivity.
  - rewrite mret_unfold in H. injection H as <- _. split; reflexivity.
Qed.

Lemma Forall2_zip_snd {A B C} (R : B -> C -> Prop) (l1 : list A) : forall (l2 : list B) ys,
  length l1 = length l2 ->
  Forall2 (fun p y => R (snd p) y) (zip l1 l2) ys -> Forall2 R l2 ys.
Proof.
  induction l1 as [|a l1 IH]; intros [|b l2] ys Hlen H; simpl in *; try discriminate.
  - inversion H. constructor.
  - inversion H; subst. constructor; [assumption|].
    apply IH; [lia|assumption].
Qed.

Lemma enrich_sections_copies sections st enriched st' :
  _enrich_sections P sections st = (Ok enriched, st') ->
  Forall2 copy_of sections enriched.
Proof.
  unfold _enrich_sections. intros H. apply mapM_inv in H.
  apply (Forall2_zip_snd copy_of (seq 0 (length sections))).
  - apply length_seq.
  - eapply Forall2_impl; [exact H|].
    intros [i section] e (s & s' & He). eapply enrich_one_copy, He.
Qed.

(** The calls that [_extract_detailed_content] makes before it asks for
    the candidates, each in the state that the call before it left. *)
Lemma detailed_content_reads pdf_file st c st' :
  _extract_detailed_content P pdf_file st = (Ok c, st') ->
  exists full_text s2 pages s3 raw s4,
    extract_all_text P st = (Ok full_text, s2) /\
    mapM (fun page_num =>
            page_text ← extract_page_text P page_num;
            mret ((page_num + 1)%Z, page_text))
         (seqZ 0 (page_count P s2)) s2 = (Ok pages, s3) /\
    extract_sections_by_formatting P s3 = (Ok raw, s4) /\
    Forall2 copy_of raw (sections c).
Proof.
  unfold _extract_detailed_content. intros H.
  apply bind_inv in H as (full & s2 & Hfull & H).
  apply bind_inv in H as (n & s2' & Hn & H).
  unfold get_page_count in Hn. injection Hn as <- <-.
  apply bind_inv in H as (pages & s3 & Hpages & H).
  apply bind_inv in H as (raw & s4 & Hraw & H).
  apply bind_inv in H as (enriched & s5 & Henr & H).
  rewrite mret_unfold in H. injection H as <- _.
  exists full, s2, pages, s3, raw, s4.
  split; [exact Hfull|]. split; [exact Hpages|]. split; [exact Hraw|].
  apply (enrich_sections_copies _ _ _ _ Henr).
Qed.

Lemma own_unfold {A} (m : M St A) st :
  own m st = (fst (m (fst st)), (snd (m (fst st)), snd st)).
Proof. unfold own. destruct (m (fst st)). reflexivity. Qed.

Lemma of_extractor_unfold {A} (m : M St A) st :
  of_extractor m st = (fst (m (snd st)), (fst st, snd (m (snd st)))).
Proof. unfold of_extractor. destruct (m (snd st)). reflexivity. Qed.

Abbreviation added := (Provenance.added P).

(** One turn of the loop leaves the list as it was or appends one
    document, made of the candidates that the turn reads. *)
Lemma process_file_adds pdf_file documents st documents' st' :
  process_file P pdf_file documents st = (Ok documents', st') ->
  documents' = documents \/
  exists doc, documents' = documents ++ [doc] /\ added pdf_file (fst st) doc.
Proof.
  unfold process_file, try_except at 1. intros H.
  rewrite bind_unfold, own_unfold in H.
  destruct (load_pdf P pdf_file (fst st)) as [[[|]|e] s1] eqn:Hload; cbn [fst snd] in H;
    [|injection H as <- _; auto..].
  cbn [negb] in H. rewrite bind_unfold, of_extractor_unfold in H.
  destruct (StructureExtractor.extract_structure P pdf_file _) as [[structure|e] e1];
    cbn [fst snd] in H; [|injection H as <- _; auto].
  rewrite bind_unfold, own_unfold in H. cbn [fst snd] in H.
  destruct (_extract_detailed_content P pdf_file s1) as [[c|e] s5] eqn:Ec;
    cbn [fst snd] in H; [|injection H as <- _; auto].
  cbv zeta in H.
  assert (Hd : documents' = documents ++
                 [{| filename := path_name pdf_file; doc_title := title structure;
                     doc_outline := outline structure; content := c |}]).
  { unfold try_except in H. rewrite bind_unfold in H.
    destruct (own (close P) _) as [[u|e] s6]; injection H as <- _; reflexivity. }
  right. eexists. split; [exact Hd|]. split; [reflexivity|].
  apply detailed_content_reads in Ec
    as (full & s2 & pages & s3 & raw & s4 & Hfull & Hpages & Hraw & Hcopy).
  exists raw. split; [|exact Hcopy].
  exists s1, full, s2, pages, s3, s4. auto.
Qed.


End ScoredSections.

Section RankedSections.

Import PersonaAnalyzer Ranking Provenance.


End RankedSections.

(** The in-memory loader answers every query without changing its state. *)
Lemma query_state {A} (f : MemoryLoader.PDF -> result A) st r st' :
  MemoryLoader.query f st = (r, st') -> st' = st.
Proof. unfold MemoryLoader.query. destruct st; intros H; injection H as _ <-; reflexivity. Qed.

Lemma mapM_state {S A B} (f : A -> M S B) l :
  (forall x st r st', f x st = (r, st') -> st' = st) ->
  forall st r st', mapM f l st = (r, st') -> st' = st.
Proof.
  intros Hf. induction l as [|x l IH]; intros st r st' H.
  - cbn in H. injection H as _ <-. reflexivity.
  - cbn [mapM] in H. rewrite bind_unfold in H.
    destruct (f x st) as [[y|e] s1] eqn:Hx; apply Hf in Hx as ->.
    + rewrite bind_unfold in H.
      destruct (mapM f l st) as [[ys|e] s2] eqn:Hl; apply IH in Hl as ->.
      * rewrite mret_unfold in H. injection H as _ <-. reflexivity.
      * injection H as _ <-. reflexivity.
    + injection H as _ <-. reflexivity.
Qed.

(** With the in-memory loader, the candidates that the turn for a file
    reads are the candidates of that file and no others, whatever the state
    in which the turn starts. *)
Lemma memory_loader_reads files pdf_file st raw :
  Provenance.reads (MemoryLoader.processor files) pdf_file st raw ->
  exists d, MemoryLoader.lookup_file files pdf_file = Some d /\
            raw = MemoryLoader.pdf_sections d.
Proof.
  intros (s1 & full & s2 & pages & s3 & s4 & Hload & Hfull & Hpages & Hraw).
  cbn [load_pdf extract_all_text extract_page_text extract_sections_by_formatting
       page_count MemoryLoader.processor] in *.
  destruct (MemoryLoader.lookup_file files pdf_file) as [d|]; [|discriminate].
  injection Hload as <-. exists d. split; [reflexivity|].
  apply query_state in Hfull as ->.
  apply mapM_state in Hpages as ->.
  - cbn in Hraw. injection Hraw as <- _. reflexivity.
  - intros x st0 r st0' H. rewrite bind_unfold in H.
    destruct (MemoryLoader.query _ st0) as [[t|e] s] eqn:Hq; apply query_state in Hq as ->.
    + rewrite mret_unfold in H. injection H as _ <-. reflexivity.
    + injection H as _ <-. reflexivity.
Qed.




(** * Further properties *)

(** ** The segmenter as a whole *)

Section SegmenterFacts.

Import StructureExtractor Segmenter.

(** The four tests of the loop, for a text that was not seen yet. *)
Lemma refine_loop_unseen sec rest seen cleaned :
  Py.strip (sec_text sec) ∉ seen ->
  refine_loop (sec :: rest) seen cleaned =
  if accepted (Py.strip (sec_text sec))
  then refine_loop rest ({[Py.strip (sec_text sec)]} ∪ seen) (cleaned ++ [heading_for sec])
  else refine_loop rest seen cleaned.
Proof.
  intros Hseen. rewrite refine_loop_cons. cbv zeta.
  rewrite (bool_decide_eq_false_2 _ Hseen). unfold accepted.
  rewrite <- noise_test_is_prefix_test. cbn [orb].
  destruct ((3 <=? _) && (_ <=? 150)); cbn [negb andb]; [|reflexivity].
  destruct (Re.matches _ _); cbn [negb andb]; [reflexivity|].
  destruct (_ =? 0)%Z; reflexivity.
Qed.

Lemma in_step_accept seen cleaned sec :
  in_step seen cleaned ->
  in_step ({[Py.strip (sec_text sec)]} ∪ seen) (cleaned ++ [heading_for sec]).
Proof.
  intros H t. unfold texts. rewrite map_app, elem_of_app, elem_of_union, (H t).
  cbn. rewrite list_elem_of_singleton, elem_of_singleton. tauto.
Qed.

Lemma in_step_empty : in_step ∅ [].
Proof. intros t. cbn. rewrite elem_of_empty, elem_of_nil. tauto. Qed.

Lemma refine_loop_subsequence sections : forall seen cleaned,
  exists kept,
    refine_loop sections seen cleaned = cleaned ++ kept /\
    sublist kept (map heading_for sections).
Proof.
  induction sections as [|sec rest IH]; intros seen cleaned.
  - exists []. rewrite app_nil_r. split; [reflexivity|constructor].
  - destruct (decide (Py.strip (sec_text sec) ∈ seen)) as [Hin|Hnin].
    + rewrite (refine_loop_seen _ _ _ _ Hin).
      destruct (IH seen cleaned) as (kept & -> & Hsub).
      exists kept. split; [reflexivity|]. cbn. apply sublist_cons, Hsub.
    + rewrite (refine_loop_unseen _ _ _ _ Hnin).
      destruct (accepted _).
      * destruct (IH ({[Py.strip (sec_text sec)]} ∪ seen) (cleaned ++ [heading_for sec]))
          as (kept & -> & Hsub).
        exists (heading_for sec :: kept). rewrite <- app_assoc.
        split; [reflexivity|]. cbn. apply sublist_skip, Hsub.
      * destruct (IH seen cleaned) as (kept & -> & Hsub).
        exists kept. split; [reflexivity|]. cbn. apply sublist_cons, Hsub.
Qed.

Lemma refine_loop_texts sections : forall seen cleaned,
  in_step seen cleaned ->
  forall t,
    t ∈ texts (refine_loop sections seen cleaned) <->
    t ∈ texts cleaned \/
    exists sec, sec ∈ sections /\ Py.strip (sec_text sec) = t /\ accepted t = true.
Proof.
  induction sections as [|sec rest IH]; intros seen cleaned Hstep t.
  - cbn. split; [auto|]. intros [H|(sec & H & _)]; [exact H|inversion H].
  - destruct (decide (Py.strip (sec_text sec) ∈ seen)) as [Hin|Hnin].
    + rewrite (refine_loop_seen _ _ _ _ Hin), (IH _ _ Hstep).
      split; intros [H|(s & Hs & Ht & Ha)]; auto.
      * right. exists s. split; [right; exact Hs|auto].
      * apply elem_of_cons in Hs as [->|Hs]; [|right; eauto].
        left. apply Hstep. rewrite <- Ht. exact Hin.
    + rewrite (refine_loop_unseen _ _ _ _ Hnin).
      destruct (accepted (Py.strip (sec_text sec))) eqn:Ea.
      * rewrite (IH _ _ (in_step_accept _ _ sec Hstep)).
        unfold texts at 1. rewrite map_app, elem_of_app. cbn.
        rewrite list_elem_of_singleton. fold (texts cleaned).
        split.
        -- intros [[H | ->]|(s & Hs & Ht & Ha)]; auto.
           ++ right. exists sec. split; [left|auto].
           ++ right. exists s. split; [right; exact Hs|auto].
        -- intros [H|(s & Hs & Ht & Ha)]; auto.
           apply elem_of_cons in Hs as [->|Hs]; [auto|right; eauto].
      * rewrite (IH _ _ Hstep).
        split; intros [H|(s & Hs & Ht & Ha)]; auto.
        -- right. exists s. split; [right; exact Hs|auto].
        -- apply elem_of_cons in Hs as [->|Hs]; [|right; eauto].
           rewrite Ht, Ha in Ea. discriminate.
Qed.

Lemma refine_loop_repeats later : forall seen cleaned,
  in_step seen cleaned ->
  Forall (fun sec => Py.strip (sec_text sec) ∈ texts cleaned) later ->
  refine_loop later seen cleaned = cleaned.
Proof.
  induction later as [|sec rest IH]; intros seen cleaned Hstep Hall; [reflexivity|].
  inversion Hall as [|? ? Hsec Hrest]; subst.
  rewrite refine_loop_seen by (apply Hstep, Hsec). apply IH; assumption.
Qed.

Lemma refine_loop_app_repeats earlier later : forall seen cleaned,
  in_step seen cleaned ->
  Forall (fun sec => Py.strip (sec_text sec) ∈ texts (refine_loop earlier seen cleaned))
         later ->
  refine_loop (earlier ++ later) seen cleaned = refine_loop earlier seen cleaned.
Proof.
  induction earlier as [|sec rest IH]; intros seen cleaned Hstep Hall.
  - cbn [app]. apply refine_loop_repeats; assumption.
  - cbn [app]. destruct (decide (Py.strip (sec_text sec) ∈ seen)) as [Hin|Hnin].
    + rewrite !(refine_loop_seen _ _ _ _ Hin) in *. apply IH; assumption.
    + rewrite !(refine_loop_unseen _ _ _ _ Hnin) in *.
      destruct (accepted _); apply IH; auto using in_step_accept.
Qed.

(** What every heading of the segmenter satisfies, beyond the invariant
    of its record: its text would be kept again, with the same level. *)
Lemma refine_loop_accepted sections : forall seen cleaned,
  Forall (fun h => accepted (h_text h) = true /\ h_level h = _determine_level (h_text h))
         cleaned ->
  Forall (fun h => accepted (h_text h) = true /\ h_level h = _determine_level (h_text h))
         (refine_loop sections seen cleaned).
Proof.
  induction sections as [|sec rest IH]; intros seen cleaned Hc; [exact Hc|].
  destruct (decide (Py.strip (sec_text sec) ∈ seen)) as [Hin|Hnin].
  - rewrite (refine_loop_seen _ _ _ _ Hin). apply IH, Hc.
  - rewrite (refine_loop_unseen _ _ _ _ Hnin).
    destruct (accepted _) eqn:Ea; [|apply IH, Hc].
    apply IH, Forall_app. split; [exact Hc|].
    constructor; [|constructor]. split; [exact Ea|reflexivity].
Qed.

Lemma refine_loop_replay hs : forall seen cleaned,
  Forall (fun h => Py.strip (h_text h) = h_text h /\ accepted (h_text h) = true /\
                   h_level h = _determine_level (h_text h)) hs ->
  NoDup (texts hs) ->
  (forall h, h ∈ hs -> h_text h ∉ seen) ->
  refine_loop (map to_raw hs) seen cleaned = cleaned ++ hs.
Proof.
  induction hs as [|h hs IH]; intros seen cleaned Hall Hnd Hseen.
  - cbn. rewrite app_nil_r. reflexivity.
  - inversion Hall as [|? ? (Htrim & Hacc & Hlvl) Hrest]; subst.
    cbn [texts map] in Hnd. apply NoDup_cons in Hnd as [Hnotin Hnd].
    cbn [map]. rewrite refine_loop_unseen; cbn [to_raw sec_text]; rewrite Htrim.
    + rewrite Hacc, IH; [| assumption | assumption |].
      * unfold heading_for, Spec.heading_of. cbn [to_raw sec_text sec_page].
        rewrite Htrim, <- Hlvl, <- app_assoc. destruct h. reflexivity.
      * intros h' Hh' Hin. apply elem_of_union in Hin as [Hin|Hin].
        -- apply elem_of_singleton in Hin. apply Hnotin. rewrite <- Hin.
           apply list_elem_of_fmap. eauto.
        -- apply (Hseen h'); [right; exact Hh'|exact Hin].
    + apply Hseen. left.
Qed.

End SegmenterFacts.

(** X1.  The segmenter keeps the order of the candidates: its output is
    a subsequence of the list in which every candidate is replaced by the
    heading it would become (trimmed text, same page, level from its
    text). *)
Theorem X1_refine_keeps_order sections :
  sublist (StructureExtractor._refine_sections sections)
          (map Segmenter.heading_for sections).
Proof.
  destruct (refine_loop_subsequence sections ∅ []) as (kept & H & Hsub).
  unfold StructureExtractor._refine_sections. rewrite H. exact Hsub.
Qed.

(** X2.  A text occurs in the segmenter's output exactly when it is the
    trimmed text of some candidate, has 3 to 150 characters, begins with
    none of the six noise prefixes and has importance above 0. *)
Theorem X2_refine_texts sections t :
  t ∈ Segmenter.texts (StructureExtractor._refine_sections sections) <->
  exists sec, sec ∈ sections /\ Py.strip (sec_text sec) = t /\ Segmenter.accepted t = true.
Proof.
  unfold StructureExtractor._refine_sections.
  rewrite (refine_loop_texts sections ∅ [] in_step_empty t). cbn.
  split; [intros [H|H]; [inversion H|exact H]|auto].
Qed.

(** X3.  The segmenter is idempotent: fed with its own output, read back
    as candidates, it returns that output. *)
Theorem X3_refine_idempotent sections :
  StructureExtractor._refine_sections
    (map Segmenter.to_raw (StructureExtractor._refine_sections sections))
  = StructureExtractor._refine_sections sections.
Proof.
  destruct (refine_sections_invariant sections) as [Hok Hnd].
  pose proof (refine_loop_accepted sections ∅ [] (List.Forall_nil _)) as Hacc.
  fold (StructureExtractor._refine_sections sections) in Hacc.
  unfold StructureExtractor._refine_sections at 1.
  rewrite refine_loop_replay; [reflexivity| |exact Hnd|set_solver].
  apply Forall_forall. intros h Hh.
  destruct (proj1 (Forall_forall _ _) Hok h Hh) as (Htrim & _).
  destruct (proj1 (Forall_forall _ _) Hacc h Hh) as (Ha & Hl). auto.
Qed.

(** X4.  The first occurrence wins: candidates that come after and whose
    trimmed texts are already in the output add nothing and change
    nothing, whatever their pages are. *)
Theorem X4_refine_first_occurrence_wins earlier later :
  Forall (fun sec => Py.strip (sec_text sec)
                     ∈ Segmenter.texts (StructureExtractor._refine_sections earlier)) later ->
  StructureExtractor._refine_sections (earlier ++ later)
  = StructureExtractor._refine_sections earlier.
Proof.
  intros H. apply refine_loop_app_repeats; [apply in_step_empty|exact H].
Qed.

Lemma X4_refine_first_occurrence_wins_witness :
  StructureExtractor._refine_sections
    ([{| sec_text := "SUMMARY:"; sec_page := 1 |}]
       ++ [{| sec_text := "  SUMMARY: "; sec_page := 7 |}])
  = StructureExtractor._refine_sections [{| sec_text := "SUMMARY:"; sec_page := 1 |}].
Proof.
  apply X4_refine_first_occurrence_wins.
  constructor; [|constructor]. vm_compute. left.
Defined.
Section ScanFacts.
Import StructureExtractor Scan.

Lemma append_cons c s t : String c s +:+ t = String c (s +:+ t).
Proof. reflexivity. Qed.

Lemma append_nil_l t : "" +:+ t = t.
Proof. reflexivity. Qed.

Lemma append_empty_r s : s +:+ "" = s.
Proof.
  induction s as [|c s IH]; [reflexivity|]. rewrite append_cons, IH. reflexivity.
Qed.

(** What [rstrip] removes is a run of stripped characters at the end. *)
Lemma rstrip_by_split p s :
  exists tail, s = Py.rstrip_by p s +:+ tail /\ forallb_str p tail = true.
Proof.
  induction s as [|c s (tail & Hs & Ht)]; [exists ""; auto|].
  cbn [Py.rstrip_by]. destruct (Py.rstrip_by p s) as [|d r] eqn:E.
  - rewrite append_nil_l in Hs. destruct (p c) eqn:Ec.
    + exists (String c tail). rewrite append_nil_l. cbn [forallb_str].
      rewrite Ec, Ht. split; [congruence|reflexivity].
    + exists tail. rewrite append_cons, append_nil_l. split; [congruence|exact Ht].
  - exists tail. split; [|exact Ht]. rewrite append_cons, <- Hs. reflexivity.
Qed.

(** What [rstrip] returns does not end with a stripped character. *)
Lemma rstrip_by_end p c s : p c = true -> Py.endswith_char c (Py.rstrip_by p s) = false.
Proof.
  intros Hc. induction s as [|a s IH]; [reflexivity|].
  cbn [Py.rstrip_by]. destruct (Py.rstrip_by p s) as [|d r] eqn:E.
  - destruct (p a) eqn:Ea; [reflexivity|]. cbn.
    destruct (Ascii.eqb_spec a c); [congruence|reflexivity].
  - exact IH.
Qed.

Lemma fallback_label_origin text h :
  h ∈ _fallback_extract_labels text ->
  exists line, line ∈ Py.split_lines text /\ is_label (Py.strip line) = true /\
               h = {| h_level := "H2"; h_text := Py.rstrip_colon (Py.strip line);
                      h_page := 1 |}.
Proof.
  unfold _fallback_extract_labels. cbv zeta.
  induction (Py.split_lines text) as [|line lines IH]; cbn [flat_map]; intros H.
  - inversion H.
  - apply elem_of_app in H as [H|H].
    + destruct (is_label (Py.strip line)) eqn:E; [|inversion H].
      apply list_elem_of_singleton in H. exists line. split; [left|auto].
    + destruct (IH H) as (l & Hl & Hrest). exists l. split; [right; exact Hl|exact Hrest].
Qed.

End ScanFacts.

(** X5.  Every record of the label scan can be traced to a line of the
    page: the trimmed line is the record's text followed by one or more
    colons, and the text itself does not end with a colon. *)
Theorem X5_fallback_label_round_trip text h :
  h ∈ StructureExtractor._fallback_extract_labels text ->
  exists line tail,
    line ∈ Py.split_lines text /\
    Py.strip line = h_text h +:+ tail /\
    tail <> "" /\ Scan.colons tail = true /\
    Py.endswith_char ":" (h_text h) = false.
Proof.
  intros H. apply fallback_label_origin in H as (line & Hline & Hlabel & ->).
  cbn [h_text]. unfold Py.rstrip_colon.
  destruct (rstrip_by_split (fun c => Ascii.eqb c ":") (Py.strip line))
    as (tail & Hsplit & Htail).
  pose proof (rstrip_by_end (fun c => Ascii.eqb c ":") ":" (Py.strip line) eq_refl) as Hend.
  exists line, tail. split; [exact Hline|]. split; [exact Hsplit|].
  split; [|split; [exact Htail|exact Hend]].
  intros ->. rewrite append_empty_r in Hsplit.
  unfold StructureExtractor.is_label in Hlabel.
  apply andb_true_iff in Hlabel as [Hlabel _].
  rewrite Hsplit, Hend in Hlabel. discriminate.
Qed.

Lemma X5_fallback_label_round_trip_witness :
  exists line tail,
    line ∈ Py.split_lines ("Name::" +:+ Fixtures.nl +:+ "text") /\
    Py.strip line = "Name" +:+ tail /\
    tail <> "" /\ Scan.colons tail = true /\
    Py.endswith_char ":" "Name" = false.
Proof.
  apply (X5_fallback_label_round_trip ("Name::" +:+ Fixtures.nl +:+ "text")
           {| h_level := "H2"; h_text := "Name"; h_page := 1 |}).
  vm_compute. left.
Defined.

(** ** The title scan *)

Section SortHead.

Context {A K : Type}.
Variable ltb : K -> K -> bool.
Variable key : A -> K.
Hypothesis ltb_asym : forall a b, ltb a b = true -> ltb b a = false.
Hypothesis ltb_negtrans : forall a b c,
  ltb a b = false -> ltb b c = false -> ltb a c = false.

(** The head of the sorted list is the first element with the largest
    key: every element before it in the unsorted list has a smaller key,
    and none after it has a larger one. *)
Lemma sort_desc_head l x r :
  sort_desc ltb key l = x :: r ->
  exists before after,
    l = before ++ x :: after /\
    Forall (fun y => ltb (key y) (key x) = true) before /\
    Forall (fun y => ltb (key x) (key y) = false) after.
Proof.
  revert x r. induction l as [|a l IH]; intros x r H; [discriminate|].
  cbn [sort_desc] in H.
  destruct (sort_desc ltb key l) as [|y r'] eqn:E.
  - pose proof (sort_desc_perm ltb key l) as Hp. rewrite E in Hp.
    apply Permutation_nil in Hp. subst l. cbn in H. injection H as <- <-.
    exists [], []. repeat split; constructor.
  - destruct (IH y r' eq_refl) as (before & after & -> & Hb & Ha).
    cbn [insert_desc] in H. destruct (ltb (key a) (key y)) eqn:Eay.
    + injection H as <- <-. exists (a :: before), after.
      split; [reflexivity|]. split; [constructor; assumption|exact Ha].
    + injection H as <- <-. exists [], (before ++ y :: after).
      split; [reflexivity|]. split; [constructor|].
      apply Forall_app. split; [|constructor].
      * eapply Forall_impl; [exact Hb|]. intros z Hz. cbn in Hz.
        destruct (ltb (key a) (key z)) eqn:Eaz; [|reflexivity].
        rewrite (ltb_negtrans _ _ _ Eay (ltb_asym _ _ Hz)) in Eaz. discriminate.
      * exact Eay.
      * eapply Forall_impl; [exact Ha|]. intros z Hz. cbn in Hz.
        apply (ltb_negtrans _ _ _ Eay Hz).
Qed.

End SortHead.

Section TitleScan.

Import StructureExtractor Scan.

Lemma title_lines_length text line :
  line ∈ title_lines text -> 5 < Py.len line < 200.
Proof.
  unfold title_lines. intros H.
  pose proof (elem_of_sublist _ _ _ H (sublist_take _ _)) as H'.
  apply list_elem_of_In, List.filter_In in H' as [_ H'].
  apply andb_true_iff in H' as [H1 H2].
  apply Nat.ltb_lt in H1, H2. lia.
Qed.

Lemma title_lines_trimmed text line :
  line ∈ title_lines text -> Py.strip line = line.
Proof.
  unfold title_lines. intros H.
  pose proof (elem_of_sublist _ _ _ H (sublist_take _ _)) as H'.
  apply list_elem_of_In, List.filter_In in H' as [H' _].
  apply in_map_iff in H' as (l & <- & _). apply strip_idem.
Qed.

Lemma title_candidate_line text c :
  c ∈ title_candidates text -> scored_line text (fst c).
Proof.
  unfold title_candidates. intros H.
  apply list_elem_of_In, in_concat in H as (cs & Hcs & Hc).
  apply list_elem_of_In, elem_of_lookup_imap in Hcs as (i & line & -> & Hline).
  destruct (Re.matches title_skip_re (Py.lower line)) eqn:E; [inversion Hc|].
  destruct Hc as [<-|[]]. split; [|exact E].
  eapply list_elem_of_lookup_2, Hline.
Qed.

Lemma no_candidate_all_skipped (score : nat -> string -> nat) lines :
  List.concat
    (imap (fun i line =>
             if Re.matches title_skip_re (Py.lower line) then []
             else [(line, score i line)]) lines) = [] ->
  Forall Invariant.skipped_line lines.
Proof.
  revert score. induction lines as [|l lines IH]; intros score H; [constructor|].
  cbn [imap List.concat] in H. unfold Invariant.skipped_line.
  destruct (Re.matches title_skip_re (Py.lower l)) eqn:E; [|discriminate].
  constructor; [exact E|]. apply (IH (fun i => score (S i))), H.
Qed.

End TitleScan.

(** X6.  The scan of the first page returns the empty string exactly when
    every line it looks at is a skipped one.  Otherwise it returns the
    first line with the highest score: a trimmed line of 6 to 199
    characters that is not skipped, with every earlier candidate scoring
    less and no later candidate scoring more. *)
Theorem X6_title_scan_returns_first_best text :
  let title := StructureExtractor._extract_title_from_text text in
  (Forall Invariant.skipped_line (StructureExtractor.title_lines text) /\ title = "") \/
  (exists before score after,
     StructureExtractor.title_candidates text = before ++ (title, score) :: after /\
     Forall (fun c => snd c < score) before /\
     Forall (fun c => snd c <= score) after /\
     Scan.scored_line text title /\ 5 < Py.len title < 200 /\
     Py.strip title = title).
Proof.
  intros title. subst title. unfold StructureExtractor._extract_title_from_text.
  destruct (sort_desc Nat.ltb snd (StructureExtractor.title_candidates text))
    as [|[line score] r] eqn:E.
  - left. split; [|reflexivity].
    pose proof (sort_desc_perm Nat.ltb snd (StructureExtractor.title_candidates text)) as Hp.
    rewrite E in Hp. apply Permutation_nil in Hp.
    apply (no_candidate_all_skipped StructureExtractor.title_score), Hp.
  - right.
    assert (Hasym : forall a b, (a <? b) = true -> (b <? a) = false).
    { intros a b H. apply Nat.ltb_lt in H. apply Nat.ltb_ge. lia. }
    assert (Hneg : forall a b c, (a <? b) = false -> (b <? c) = false -> (a <? c) = false).
    { intros a b c H1 H2. apply Nat.ltb_ge in H1, H2. apply Nat.ltb_ge. lia. }
    destruct (sort_desc_head Nat.ltb (snd : string * nat -> nat) Hasym Hneg _ _ _ E)
      as (before & after & Hl & Hb & Ha).
    exists before, score, after. cbn [fst].
    split; [exact Hl|]. split; [|split].
    + eapply Forall_impl; [exact Hb|]. intros c Hc. apply Nat.ltb_lt in Hc. exact Hc.
    + eapply Forall_impl; [exact Ha|]. intros c Hc. apply Nat.ltb_ge in Hc. exact Hc.
    + assert (Hin : (line, score) ∈ StructureExtractor.title_candidates text).
      { rewrite Hl. apply elem_of_app. right. left. }
      pose proof (title_candidate_line _ _ Hin) as Hs. cbn [fst] in Hs.
      split; [exact Hs|].
      split; [apply (title_lines_length text), Hs|apply (title_lines_trimmed text), Hs].
Qed.

(** ** The title cascade in the outline pipeline *)

(** X7.  A declared metadata title of more than 3 characters, once
    trimmed, is the title of the document: with at least one heading from
    the segmenter, the pipeline asks the loader for nothing else before it
    closes the file, and returns that title with the segmenter's outline. *)
Theorem X7_metadata_title_wins {St} (P : PDFProcessor St)
    path st s1 s2 s3 s4 sections info :
  load_pdf P path st = (Ok true, s1) ->
  extract_sections_by_formatting P s1 = (Ok sections, s2) ->
  StructureExtractor._refine_sections sections <> [] ->
  get_document_info P s2 = (Ok info, s3) ->
  3 < Py.len (Py.strip (default "" info)) ->
  close P s3 = (Ok tt, s4) ->
  StructureExtractor.extract_structure P path st
  = (Ok {| title := Py.strip (default "" info);
           outline := StructureExtractor._refine_sections sections;
           error := None |}, s4).
Proof.
  intros Hload Hsec Hne Hinfo Hlen Hclose.
  rewrite (extract_structure_loaded P _ _ _ _ _ Hload Hsec).
  destruct (StructureExtractor._refine_sections sections) as [|h hs]; [congruence|].
  rewrite bind_unfold, mret_unfold.
  unfold StructureExtractor._extract_title.
  rewrite bind_unfold, bind_unfold, Hinfo. cbv zeta.
  assert (E : Py.nonempty (Py.strip (default "" info))
              && (3 <? Py.len (Py.strip (default "" info))) = true).
  { apply andb_true_iff. split; [|apply Nat.ltb_lt, Hlen].
    destruct (Py.strip (default "" info)); [cbn in Hlen; lia|reflexivity]. }
  rewrite E, mret_unfold, bind_unfold, Hclose. reflexivity.
Qed.

Lemma X7_metadata_title_wins_witness :
  StructureExtractor.extract_structure (MemoryLoader.processor Fixtures.files)
    "in/paper.pdf" None
  = (Ok {| title := "A Paper";
           outline := [{| h_level := "H2"; h_text := "EXPERIMENT DATA"; h_page := 2 |}];
           error := None |}, None).
Proof.
  apply (X7_metadata_title_wins (MemoryLoader.processor Fixtures.files) "in/paper.pdf"
           None (Some Fixtures.paper_pdf) (Some Fixtures.paper_pdf)
           (Some Fixtures.paper_pdf) None
           (MemoryLoader.pdf_sections Fixtures.paper_pdf) (Some "A Paper")).
  - reflexivity.
  - reflexivity.
  - vm_compute. discriminate.
  - reflexivity.
  - vm_compute. lia.
  - reflexivity.
Defined.

(** X8.  A document that offers nothing gets the placeholder: when the
    segmenter keeps no heading, the first page has no label line and no
    line for the title scan, the metadata title has at most 3 characters
    once trimmed and the extractor has no title candidate, the result is
    the title "Untitled Document" with an empty outline and no error. *)
Theorem X8_empty_document_is_untitled {St} (P : PDFProcessor St)
    path st s1 s2 s3 s4 s5 s6 s7 sections page info page' :
  load_pdf P path st = (Ok true, s1) ->
  extract_sections_by_formatting P s1 = (Ok sections, s2) ->
  StructureExtractor._refine_sections sections = [] ->
  extract_page_text P 0%Z s2 = (Ok page, s3) ->
  StructureExtractor._fallback_extract_labels page = [] ->
  get_document_info P s3 = (Ok info, s4) ->
  Py.len (Py.strip (default "" info)) <= 3 ->
  find_title_candidates P s4 = (Ok [], s5) ->
  extract_page_text P 0%Z s5 = (Ok page', s6) ->
  Forall Invariant.skipped_line (StructureExtractor.title_lines page') ->
  close P s6 = (Ok tt, s7) ->
  StructureExtractor.extract_structure P path st
  = (Ok {| title := "Untitled Document"; outline := []; error := None |}, s7).
Proof.
  intros Hload Hsec Hnone Hpage Hfb Hinfo Hlen Hcand Hpage' Hskip Hclose.
  rewrite (extract_structure_loaded P _ _ _ _ _ Hload Hsec), Hnone.
  rewrite bind_unfold, bind_unfold, Hpage, mret_unfold, Hfb.
  unfold StructureExtractor._extract_title.
  rewrite bind_unfold, bind_unfold, Hinfo. cbv zeta.
  assert (E : Py.nonempty (Py.strip (default "" info))
              && (3 <? Py.len (Py.strip (default "" info))) = false).
  { apply andb_false_iff. right. apply Nat.ltb_ge, Hlen. }
  rewrite E, bind_unfold, Hcand, bind_unfold, Hpage'. cbv zeta.
  rewrite (extract_title_from_text_none _ Hskip). cbn [Py.nonempty].
  rewrite mret_unfold, bind_unfold, Hclose. reflexivity.
Qed.

Lemma X8_empty_document_is_untitled_witness :
  StructureExtractor.extract_structure (MemoryLoader.processor Blank.files)
    "in/blank.pdf" None
  = (Ok {| title := "Untitled Document"; outline := []; error := None |}, None).
Proof.
  apply (X8_empty_document_is_untitled (MemoryLoader.processor Blank.files) "in/blank.pdf"
           None (Some Blank.blank_pdf) (Some Blank.blank_pdf) (Some Blank.blank_pdf)
           (Some Blank.blank_pdf) (Some Blank.blank_pdf) (Some Blank.blank_pdf) None
           [] "" None "").
  - reflexivity.
  - reflexivity.
  - reflexivity.
  - reflexivity.
  - reflexivity.
  - reflexivity.
  - vm_compute. lia.
  - reflexivity.
  - reflexivity.
  - vm_compute. constructor.
  - reflexivity.
Defined.

(** ** Heading shapes *)

Section HeadingShapes.

Import Re PersonaAnalyzer Shapes.

Lemma matches_Bol r s :
  matches (Seq Bol r) s = match ends r (None, s) with [] => false | _ :: _ => true end.
Proof.
  unfold matches. rewrite ends_Seq.
  change (ends Bol (None, s)) with [(None : option ascii, s)].
  cbn [flat_map]. rewrite app_nil_r. reflexivity.
Qed.

Lemma ends_first_fails p r k : step_if p k = [] -> ends (Seq (Cls p) r) k = [].
Proof. intros H. rewrite ends_Seq. cbn [ends]. rewrite H. reflexivity. Qed.

Lemma ends_first_plus_fails p r k :
  step_if p k = [] -> ends (Seq (Plus (Cls p)) r) k = [].
Proof.
  intros H. unfold Plus. rewrite ends_Seq, ends_Seq. cbn [ends]. rewrite H. reflexivity.
Qed.

Lemma step_if_fails p b c s : p c = false -> step_if p (b, String c s) = [].
Proof. intros H. unfold step_if. cbn. rewrite H. reflexivity. Qed.

Lemma step_if_empty p b : step_if p (b, "") = [].
Proof. reflexivity. Qed.

Lemma shapes_need_start text :
  starts_like_heading text = false ->
  existsb (fun pattern => matches pattern text) heading_patterns = false.
Proof.
  intros H. unfold heading_patterns, numbered_re, allcaps_re, titlecase_re.
  cbn [existsb]. rewrite !matches_Bol.
  assert (Hd : step_if Py.is_digit (None, text) = []).
  { destruct text as [|c s]; [reflexivity|]. apply step_if_fails.
    cbn in H. apply orb_false_iff in H. tauto. }
  assert (Hu : step_if Py.is_upper (None, text) = []).
  { destruct text as [|c s]; [reflexivity|]. apply step_if_fails.
    cbn in H. apply orb_false_iff in H. tauto. }
  unfold digit, upper.
  rewrite (ends_first_plus_fails _ _ _ Hd), !(ends_first_fails _ _ _ Hu). reflexivity.
Qed.

End HeadingShapes.

(** X9.  A text that looks like a heading has 3 to 150 characters and
    begins with a digit or a capital letter; in particular an empty line
    and a line that begins in lower case never look like headings. *)
Theorem X9_heading_needs_digit_or_capital text :
  PersonaAnalyzer._looks_like_heading text = true ->
  3 <= Py.len text <= 150 /\ Shapes.starts_like_heading text = true.
Proof.
  unfold PersonaAnalyzer._looks_like_heading. intros H.
  destruct ((Py.len text <? 3) || (150 <? Py.len text)) eqn:E; [discriminate|].
  apply orb_false_iff in E as [E1 E2]. apply Nat.ltb_ge in E1, E2.
  split; [lia|].
  destruct (Shapes.starts_like_heading text) eqn:Es; [reflexivity|].
  rewrite (shapes_need_start _ Es) in H. discriminate.
Qed.

Lemma X9_heading_needs_digit_or_capital_witness :
  3 <= Py.len "2. Methods" <= 150 /\ Shapes.starts_like_heading "2. Methods" = true.
Proof. apply X9_heading_needs_digit_or_capital. reflexivity. Defined.

(** ** Section content *)

Section ContentFacts.

Import PersonaAnalyzer.

Lemma lower_char_idem c : Py.lower_char (Py.lower_char c) = Py.lower_char c.
Proof.
  unfold Py.lower_char at 1. rewrite lower_char_not_upper. reflexivity.
Qed.

Lemma lower_idem s : Py.lower (Py.lower s) = Py.lower s.
Proof.
  induction s as [|c s IH]; [reflexivity|].
  cbn [Py.lower]. rewrite lower_char_idem, IH. reflexivity.
Qed.

End ContentFacts.

(** X10.  The content of a section is trimmed, and it depends on the
    title only up to case: the lowercased title finds the same content,
    whatever index and list of sections are passed along. *)
Theorem X10_section_content_trimmed_caseless page_text section_title i all j all' :
  Py.strip (PersonaAnalyzer._extract_section_content page_text section_title i all)
  = PersonaAnalyzer._extract_section_content page_text section_title i all /\
  PersonaAnalyzer._extract_section_content page_text (Py.lower section_title) j all'
  = PersonaAnalyzer._extract_section_content page_text section_title i all.
Proof.
  split.
  - rewrite extract_section_content_unfold. cbv zeta.
    destruct (Expansion.start_of _ _); [apply strip_idem|reflexivity].
  - rewrite !extract_section_content_unfold. cbv zeta.
    unfold Expansion.start_of. rewrite lower_idem. reflexivity.
Qed.

(** ** Keywords *)

Section KeywordFacts.

Import Re PersonaAnalyzer Shapes Scan.

Lemma ends_Star r k : ends (Star r) k = star_loop (ends r) (String.length (snd k)) k.
Proof.
  cbn [ends]. generalize (String.length (snd k)). intros fuel. revert k.
  induction fuel as [|fuel IH]; intros k; [reflexivity|].
  cbn [star_loop]. f_equal.
  apply List.flat_map_ext. intros k'. rewrite IH. reflexivity.
Qed.

Lemma forallb_str_app p w r :
  forallb_str p (w +:+ r) = forallb_str p w && forallb_str p r.
Proof.
  induction w as [|c w IH]; [reflexivity|].
  rewrite append_cons. cbn [forallb_str]. rewrite IH, andb_assoc. reflexivity.
Qed.

Lemma length_append w r : String.length (w +:+ r) = String.length w + String.length r.
Proof.
  induction w as [|c w IH]; [reflexivity|].
  rewrite append_cons. cbn [String.length]. rewrite IH. reflexivity.
Qed.

Lemma append_assoc u v w : (u +:+ v) +:+ w = u +:+ (v +:+ w).
Proof.
  induction u as [|c u IH]; [reflexivity|].
  rewrite !append_cons, IH. reflexivity.
Qed.

Lemma substring_prefix w r : String.substring 0 (String.length w) (w +:+ r) = w.
Proof.
  induction w as [|c w IH].
  - destruct r; reflexivity.
  - rewrite append_cons. cbn [String.length String.substring]. rewrite IH. reflexivity.
Qed.

Lemma run_refl p k : run p 0 k k.
Proof. exists "". repeat split. lia. Qed.

Lemma run_trans p n m k k1 k2 : run p n k k1 -> run p m k1 k2 -> run p (n + m) k k2.
Proof.
  intros (w1 & H1 & F1 & L1) (w2 & H2 & F2 & L2). exists (w1 +:+ w2).
  rewrite append_assoc, <- H2, forallb_str_app, F1, F2, length_append.
  repeat split; [exact H1|lia].
Qed.

Lemma run_weaken p n m k k' : m <= n -> run p n k k' -> run p m k k'.
Proof. intros Hm (w & H & F & L). exists w. repeat split; [exact H|exact F|lia]. Qed.

Lemma step_run p k k' : k' ∈ step_if p k -> run p 1 k k'.
Proof.
  unfold step_if. destruct k as [b [|c s]]; cbn [snd]; intros H; [inversion H|].
  destruct (p c) eqn:E; [|inversion H].
  apply list_elem_of_singleton in H. subst k'.
  exists (String c ""). cbn. rewrite E. repeat split. lia.
Qed.

Lemma elem_of_flat_map {A B} (f : A -> list B) l y :
  y ∈ flat_map f l <-> exists x, x ∈ l /\ y ∈ f x.
Proof.
  rewrite list_elem_of_In, in_flat_map.
  split; intros (x & H1 & H2); exists x; rewrite ?list_elem_of_In in *; auto.
Qed.

Lemma star_run p (step : cursor -> list cursor) :
  (forall k k', k' ∈ step k -> run p 1 k k') ->
  forall fuel k k', k' ∈ star_loop step fuel k -> run p 0 k k'.
Proof.
  intros Hstep. induction fuel as [|fuel IH]; intros k k' H.
  - apply list_elem_of_singleton in H. subst. apply run_refl.
  - cbn [star_loop] in H. apply elem_of_app in H as [H|H].
    + apply elem_of_flat_map in H as (k1 & H1 & H).
      destruct (shorter k1 k); [|inversion H].
      apply (run_weaken p (1 + 0)); [lia|].
      apply (run_trans _ _ _ _ k1); [apply Hstep, H1|apply IH, H].
    + apply list_elem_of_singleton in H. subst. apply run_refl.
Qed.

Lemma ends_Seq_elem r1 r2 k k' :
  k' ∈ ends (Seq r1 r2) k <-> exists k1, k1 ∈ ends r1 k /\ k' ∈ ends r2 k1.
Proof. rewrite ends_Seq. apply elem_of_flat_map. Qed.

Lemma ends_WordB_elem k k' : k' ∈ ends WordB k -> k' = k.
Proof.
  cbn [ends]. destruct (xorb _ _); intros H; [|inversion H].
  apply list_elem_of_singleton in H. exact H.
Qed.

(** A match of the keyword pattern consumes three letters or more. *)
Lemma keyword_match_run k k' : k' ∈ ends keyword_re k -> run Py.is_alpha 3 k k'.
Proof.
  unfold keyword_re, alpha. intros H.
  apply ends_Seq_elem in H as (k0 & H0 & H). apply ends_WordB_elem in H0. subst k0.
  apply ends_Seq_elem in H as (k1 & H1 & H).
  apply ends_Seq_elem in H as (k2 & H2 & H).
  apply ends_Seq_elem in H as (k3 & H3 & H).
  apply ends_Seq_elem in H as (k4 & H4 & H). apply ends_WordB_elem in H. subst k'.
  rewrite ends_Star in H4.
  apply (star_run Py.is_alpha _ (fun a b => step_run Py.is_alpha a b)) in H4.
  apply step_run in H1, H2, H3.
  apply (run_weaken _ (1 + (1 + (1 + 0)))); [lia|].
  eauto using run_trans.
Qed.

Lemma consumed_run w k k' : snd k = w +:+ snd k' -> consumed k k' = w.
Proof.
  intros H. unfold consumed. rewrite H, length_append.
  replace (String.length w + String.length (snd k') - String.length (snd k'))
    with (String.length w) by lia.
  apply substring_prefix.
Qed.

Lemma no_capital_lower s b : no_capital (b, Py.lower s).
Proof.
  unfold no_capital. cbn [snd]. induction s as [|c s IH]; [reflexivity|].
  cbn [Py.lower forallb_str]. rewrite lower_char_not_upper, IH. reflexivity.
Qed.

Lemma lower_letters w :
  forallb_str Py.is_alpha w = true ->
  forallb_str (fun c => negb (Py.is_upper c)) w = true ->
  forallb_str Py.is_lower w = true.
Proof.
  induction w as [|c w IH]; [reflexivity|]. cbn [forallb_str].
  intros Ha Hn. apply andb_true_iff in Ha as [Ha1 Ha2], Hn as [Hn1 Hn2].
  rewrite (IH Ha2 Hn2), andb_true_r.
  unfold Py.is_alpha in Ha1. apply negb_true_iff in Hn1. rewrite Hn1 in Ha1. exact Ha1.
Qed.

Lemma findall_keywords fuel : forall k w,
  no_capital k -> w ∈ findall_from fuel keyword_re k -> keyword w.
Proof.
  induction fuel as [|fuel IH]; intros k w Hk H; [inversion H|].
  cbn [findall_from] in H.
  destruct (List.filter (fun k' => shorter k' k) (ends keyword_re k)) as [|k' rest] eqn:E.
  - destruct k as [b [|c s]]; cbn [snd] in H; [inversion H|].
    apply (IH (Some c, s)); [|exact H].
    unfold no_capital in *. cbn [snd forallb_str] in *.
    apply andb_true_iff in Hk. tauto.
  - assert (Hin : k' ∈ ends keyword_re k).
    { assert (Hf : In k' (List.filter (fun k' => shorter k' k) (ends keyword_re k)))
        by (rewrite E; left; reflexivity).
      apply List.filter_In in Hf as [Hf _]. apply list_elem_of_In, Hf. }
    apply keyword_match_run in Hin as (u & Hu & Fu & Lu).
    unfold no_capital in Hk. rewrite Hu, forallb_str_app in Hk.
    apply andb_true_iff in Hk as [Hk1 Hk2].
    apply elem_of_cons in H as [->|H].
    + rewrite (consumed_run u _ _ Hu). split; [exact Lu|apply lower_letters; assumption].
    + apply (IH k'); [exact Hk2|exact H].
Qed.

End KeywordFacts.

(** X11.  Every keyword extracted from a text is a word of three or more
    lowercase letters and is not a stop word. *)
Theorem X11_keywords_are_lowercase_words text w :
  w ∈ PersonaAnalyzer._extract_keywords text ->
  Shapes.keyword w /\ w ∉ PersonaAnalyzer.stop_words.
Proof.
  unfold PersonaAnalyzer._extract_keywords. cbv zeta. intros H.
  apply elem_of_list_to_set, list_elem_of_In, List.filter_In in H as [Hin Hstop].
  split.
  - unfold Re.findall in Hin.
    eapply findall_keywords; [apply no_capital_lower|apply list_elem_of_In, Hin].
  - apply negb_true_iff, bool_decide_eq_false in Hstop. exact Hstop.
Qed.

Lemma X11_keywords_are_lowercase_words_witness :
  Shapes.keyword "researcher" /\ "researcher" ∉ PersonaAnalyzer.stop_words.
Proof.
  apply (X11_keywords_are_lowercase_words "The PhD Researcher"). vm_compute.
  set_solver.
Defined.

(** ** Scores without overlap *)

Section ScoreFacts.

Import PersonaAnalyzer Scores.

Lemma truediv_zero n : F64.truediv 0 (Z.max n 1) = F64.zero.
Proof.
  unfold F64.truediv. destruct (exact_int_max_pos n) as [p ->]. reflexivity.
Qed.

Lemma overlap_score_none keywords section :
  no_overlap keywords section ->
  overlap_score keywords (_extract_keywords (combined_text section)) = F64.zero.
Proof.
  intros H. unfold overlap_score. cbv zeta. unfold no_overlap in H.
  rewrite H, size_empty. apply truediv_zero.
Qed.

Lemma no_overlap_empty section : no_overlap ∅ section.
Proof. apply (left_absorb_L ∅ (∩)). Qed.

Lemma add_zero_l x : F64.nonneg x -> F64.add F64.zero x = x.
Proof. destruct x as [[]|[]| |[] m e]; cbn; tauto || reflexivity. Qed.

(** The capped bonus is below [1.0]. *)
Lemma bonus_below_one persona text :
  F64.ltb F64.one (_get_domain_bonuses persona text) = false.
Proof.
  unfold _get_domain_bonuses, F64.min.
  destruct (F64.ltb F64.c0_3 (raw_bonus persona text)) eqn:E; [reflexivity|].
  apply (SFltb_negtrans F64.one F64.c0_3 _); try exact I; try reflexivity.
  - apply raw_bonus_nonneg.
  - exact E.
Qed.

Lemma existsb_sublist {A} (f : A -> bool) l1 l2 :
  (forall x, In x l1 -> In x l2) -> existsb f l2 = false -> existsb f l1 = false.
Proof.
  intros Hsub H. destruct (existsb f l1) eqn:E; [|reflexivity].
  apply existsb_exists in E as (x & Hx & Hf).
  rewrite <- H. symmetry. apply existsb_exists. exists x. auto.
Qed.

Lemma raw_bonus_no_trigger persona text :
  no_trigger persona -> raw_bonus persona text = F64.zero.
Proof.
  unfold no_trigger, raw_bonus, Py.contains_any. intros H. cbv zeta.
  assert (Hsub : forall l, (forall x, In x l -> In x triggers) ->
            existsb (fun w => Py.contains w (Py.lower persona)) l = false).
  { intros l Hl. apply (existsb_sublist _ l triggers Hl H). }
  rewrite !Hsub by (unfold triggers; simpl; intros; tauto).
  reflexivity.
Qed.

Lemma score_without_overlap persona section (persona_keywords job_keywords : gset string) :
  no_overlap persona_keywords section ->
  no_overlap job_keywords section ->
  _calculate_relevance_score persona section persona_keywords job_keywords
  = _get_domain_bonuses persona (combined_text section).
Proof.
  intros Hp Hj. unfold _calculate_relevance_score, uncapped_score.
  cbv zeta. rewrite (overlap_score_none _ _ Hp), (overlap_score_none _ _ Hj).
  change (F64.add (F64.mul F64.c0_6 F64.zero) (F64.mul F64.c0_4 F64.zero)) with F64.zero.
  rewrite add_zero_l by apply domain_bonuses_nonneg.
  unfold F64.min at 1. rewrite bonus_below_one. reflexivity.
Qed.

End ScoreFacts.

(** X12.  A section that shares no keyword with the persona nor with the
    job scores exactly its domain bonus; this covers empty keyword sets,
    where the divisions are by 1 and not by 0. *)
Theorem X12_score_without_overlap_is_bonus persona section
    (persona_keywords job_keywords : gset string) :
  Scores.no_overlap persona_keywords section ->
  Scores.no_overlap job_keywords section ->
  PersonaAnalyzer._calculate_relevance_score persona section persona_keywords job_keywords
  = PersonaAnalyzer._get_domain_bonuses persona (PersonaAnalyzer.combined_text section).
Proof.
  apply score_without_overlap.
Qed.

Lemma X12_score_without_overlap_is_bonus_witness :
  let section := {| es_text := "Methodology"; es_page := 1;
                    es_content := Some "results analysis hypothesis" |} in
  PersonaAnalyzer._calculate_relevance_score "PhD researcher" section ∅ ∅
  = PersonaAnalyzer._get_domain_bonuses "PhD researcher"
      (PersonaAnalyzer.combined_text section).
Proof.
  intros section. apply X12_score_without_overlap_is_bonus.
  - apply no_overlap_empty.
  - apply no_overlap_empty.
Defined.

(** X13.  With a persona and a job that yield no keyword, and a persona
    that names no trigger word (the empty defaults of a configuration
    without these keys, for one), every score is 0.0 and no section is
    extracted, whatever the documents are. *)
Theorem X13_no_keywords_no_sections persona job_to_be_done documents :
  PersonaAnalyzer._extract_keywords persona = ∅ ->
  PersonaAnalyzer._extract_keywords job_to_be_done = ∅ ->
  Scores.no_trigger persona ->
  PersonaAnalyzer._extract_relevant_sections persona job_to_be_done documents = [].
Proof.
  intros Hp Hj Ht. unfold PersonaAnalyzer._extract_relevant_sections. cbv zeta.
  rewrite Hp, Hj.
  assert (Hzero : forall section,
            PersonaAnalyzer._calculate_relevance_score persona section ∅ ∅ = F64.zero).
  { intros section.
    rewrite score_without_overlap by apply no_overlap_empty.
    unfold PersonaAnalyzer._get_domain_bonuses.
    rewrite (raw_bonus_no_trigger _ _ Ht). reflexivity. }
  rewrite (flat_map_nil _ (fun _ => True)); [reflexivity|apply Forall_forall; auto|].
  intros doc _. apply (flat_map_nil _ (fun _ => True)); [apply Forall_forall; auto|].
  intros section _. cbv zeta. rewrite Hzero. reflexivity.
Qed.

Lemma X13_no_keywords_no_sections_witness :
  PersonaAnalyzer._extract_relevant_sections "" "42" Scores.sample_documents = [].
Proof.
  apply X13_no_keywords_no_sections; reflexivity.
Defined.

(** ** The analysis as a whole *)

Section WholeFacts.

Import PersonaAnalyzer.

Lemma analyze_subsections_repeats persona job_to_be_done l :
  Forall2 Whole.repeats (_analyze_subsections persona job_to_be_done l) (take 10 l).
Proof.
  unfold _analyze_subsections.
  induction (take 10 l) as [|r rs IH]; cbn [map]; constructor; [|exact IH].
  repeat split.
Qed.

Lemma take_ranks k n : take k (Ranking.ranks n) = Ranking.ranks (Nat.min k n).
Proof. unfold Ranking.ranks. rewrite firstn_map, take_seq. reflexivity. Qed.

Lemma relevant_sections_ranks persona job_to_be_done documents :
  map importance_rank (_extract_relevant_sections persona job_to_be_done documents)
  = Ranking.ranks (length (_extract_relevant_sections persona job_to_be_done documents)).
Proof.
  destruct (ranker_sorts_kept persona job_to_be_done documents) as (sorted & _ & ->).
  rewrite imap_set_rank_ranks, length_imap. reflexivity.
Qed.

End WholeFacts.

(** X14.  The subsection analysis covers the first ten ranked sections, in
    order, one record each with the same document, page and title; its
    [relevance_score] fields hold the ranks 1, 2, ... and never a score. *)
Theorem X14_subsections_carry_ranks persona job_to_be_done documents :
  let ranked := PersonaAnalyzer._extract_relevant_sections persona job_to_be_done documents in
  let subs := PersonaAnalyzer._analyze_subsections persona job_to_be_done ranked in
  length subs = Nat.min 10 (length ranked) /\
  Forall2 Whole.repeats subs (take 10 ranked) /\
  map relevance_score subs = Ranking.ranks (Nat.min 10 (length ranked)).
Proof.
  intros ranked subs. split; [|split].
  - unfold subs, PersonaAnalyzer._analyze_subsections.
    rewrite length_map, length_take. reflexivity.
  - apply analyze_subsections_repeats.
  - unfold subs, PersonaAnalyzer._analyze_subsections.
    rewrite map_map. cbn [relevance_score].
    rewrite <- firstn_map. unfold ranked at 1.
    rewrite relevant_sections_ranks. apply take_ranks.
Qed.

(** X15.  The analysis of a collection never raises, whatever the loader
    does: it returns a result whose metadata repeats the persona, the job
    and the clock reading and lists the name of every input file, also of
    the files that could not be loaded, and whose subsection analysis is
    derived from its extracted sections and has ten records at most. *)
Theorem X15_analysis_always_returns {St} (P : PDFProcessor St)
    pdf_files persona job_to_be_done now st :
  exists res st',
    PersonaAnalyzer.analyze_documents P pdf_files persona job_to_be_done now st
    = (Ok res, st') /\
    metadata res = {| documents := map path_name pdf_files; md_persona := persona;
                      md_job_to_be_done := job_to_be_done; timestamp := now |} /\
    subsection_analysis res
    = PersonaAnalyzer._analyze_subsections persona job_to_be_done (extracted_sections res) /\
    length (subsection_analysis res) <= 10.
Proof.
  destruct (contents_loop_total P pdf_files [] st) as (docs & st' & H).
  unfold PersonaAnalyzer.analyze_documents, PersonaAnalyzer._extract_document_contents.
  rewrite (bind_ok _ _ _ _ _ H), mret_unfold.
  eexists _, _. split; [reflexivity|]. cbn [metadata subsection_analysis extracted_sections].
  split; [reflexivity|]. split; [reflexivity|].
  unfold PersonaAnalyzer._analyze_subsections. rewrite length_map, length_take. lia.
Qed.

Section DocumentOrder.

Import PersonaAnalyzer.

Context {St : Type}.
Variable P : PDFProcessor St.

Lemma contents_loop_order pdf_files : forall documents st documents' st',
  contents_loop P pdf_files documents st = (Ok documents', st') ->
  exists new,
    documents' = documents ++ new /\
    sublist (map filename new) (map path_name pdf_files).
Proof.
  induction pdf_files as [|f fs IH]; intros documents st documents' st' H.
  - cbn in H. injection H as <- _. exists []. rewrite app_nil_r. split; [reflexivity|constructor].
  - cbn [contents_loop] in H.
    apply bind_inv in H as (d1 & s1 & H1 & H).
    apply IH in H as (new & -> & Hnew).
    apply process_file_adds in H1 as [->|(doc & -> & Hname & _)].
    + exists new. split; [reflexivity|]. cbn [map]. apply sublist_cons, Hnew.
    + exists (doc :: new). rewrite <- app_assoc. split; [reflexivity|].
      cbn [map]. rewrite Hname. apply sublist_skip, Hnew.
Qed.

End DocumentOrder.

(** X16.  The collected documents follow the order of the input files,
    with one document at most for each file: their file names form a
    subsequence of the names of the input files. *)
Theorem X16_documents_follow_input_order {St} (P : PDFProcessor St)
    pdf_files st documents st' :
  PersonaAnalyzer._extract_document_contents P pdf_files st = (Ok documents, st') ->
  sublist (map filename documents) (map path_name pdf_files).
Proof.
  intros H. apply contents_loop_order in H as (new & -> & Hsub). exact Hsub.
Qed.

Lemma X16_documents_follow_input_order_witness :
  exists documents,
    fst (PersonaAnalyzer._extract_document_contents (MemoryLoader.processor Fixtures.files)
           ["in/bare.pdf"; "in/missing.pdf"; "in/paper.pdf"] (None, None))
    = Ok documents /\
    map filename documents = ["bare.pdf"; "paper.pdf"] /\
    sublist (map filename documents) ["bare.pdf"; "missing.pdf"; "paper.pdf"].
Proof.
  eexists. split; [vm_compute; reflexivity|]. split; [reflexivity|].
  apply (X16_documents_follow_input_order (MemoryLoader.processor Fixtures.files)
           ["in/bare.pdf"; "in/missing.pdf"; "in/paper.pdf"] (None, None) _ (None, None)).
  vm_compute. reflexivity.
Defined.

(** ** The detailed content *)

Section DetailFacts.

Import PersonaAnalyzer Detail.

Context {St : Type}.
Variable P : PDFProcessor St.

Lemma enrich_one_from sections i section st e st' :
  enrich_one P sections i section st = (Ok e, st') -> enriched_from section e.
Proof.
  unfold enrich_one. cbv zeta. intros H.
  apply bind_inv in H as (n & s1 & _ & H).
  destruct (_ <? n)%Z.
  - apply bind_inv in H as (t & s2 & _ & H).
    rewrite mret_unfold in H. injection H as <- _.
    split; [split; reflexivity|]. cbn [es_content]. intros c Hc.
    injection Hc as <-.
    rewrite extract_section_content_unfold. cbv zeta.
    destruct (Expansion.start_of _ _); [apply strip_idem|reflexivity].
  - rewrite mret_unfold in H. injection H as <- _.
    split; [split; reflexivity|]. cbn [es_content]. intros c Hc. discriminate.
Qed.

Lemma page_loop_keys pages : forall st (l : list (Z * string)) st',
  mapM (fun page_num =>
          page_text ← extract_page_text P page_num;
          mret ((page_num + 1)%Z, page_text)) pages st = (Ok l, st') ->
  map fst l = map (fun page_num => (page_num + 1)%Z) pages.
Proof.
  induction pages as [|p pages IH]; intros st l st' H.
  - cbn in H. injection H as <- _. reflexivity.
  - cbn [mapM] in H.
    apply bind_inv in H as (y & s1 & Hy & H).
    apply bind_inv in H as (ys & s2 & Hys & H).
    rewrite mret_unfold in H. injection H as <- _.
    apply bind_inv in Hy as (t & s3 & _ & Hy).
    rewrite mret_unfold in Hy. injection Hy as <- _.
    cbn [map fst]. f_equal. apply (IH _ _ _ Hys).
Qed.

End DetailFacts.

(** X17.  The enrichment keeps the candidates as they are: the result has
    one entry for each candidate, in the same order, with the same text and
    page, and a content, where there is one, that is trimmed. *)
Theorem X17_enrichment_keeps_candidates {St} (P : PDFProcessor St)
    sections st enriched st' :
  PersonaAnalyzer._enrich_sections P sections st = (Ok enriched, st') ->
  Forall2 Detail.enriched_from sections enriched.
Proof.
  unfold PersonaAnalyzer._enrich_sections. intros H. apply mapM_inv in H.
  apply (Forall2_zip_snd Detail.enriched_from (seq 0 (length sections))).
  - apply length_seq.
  - eapply Forall2_impl; [exact H|].
    intros [i section] e (s & s' & He). eapply enrich_one_from, He.
Qed.

Lemma X17_enrichment_keeps_candidates_witness :
  Forall2 Detail.enriched_from (MemoryLoader.pdf_sections Fixtures.paper_pdf)
    [{| es_text := "Methodology and results of the analysis"; es_page := 1;
        es_content := Some "The data supports the hypothesis." |};
     {| es_text := "EXPERIMENT DATA"; es_page := 2; es_content := Some "Forty runs." |}].
Proof.
  apply (X17_enrichment_keeps_candidates (MemoryLoader.processor Fixtures.files)
           (MemoryLoader.pdf_sections Fixtures.paper_pdf) (Some Fixtures.paper_pdf) _
           (Some Fixtures.paper_pdf)).
  vm_compute. reflexivity.
Defined.

(** X18.  In the detailed content the pages are numbered from 1: when
    the loader reports [n] pages after the full text is read, [page_texts]
    has exactly the keys 1 to [n], and [full_text] is what the loader
    returned. *)
Theorem X18_page_texts_are_one_based {St} (P : PDFProcessor St)
    pdf_file st full s1 c st' :
  extract_all_text P st = (Ok full, s1) ->
  PersonaAnalyzer._extract_detailed_content P pdf_file st = (Ok c, st') ->
  full_text c = full /\
  forall k : Z, is_Some (page_texts c !! k) <-> (1 <= k <= page_count P s1)%Z.
Proof.
  intros Hfull H. unfold PersonaAnalyzer._extract_detailed_content in H.
  rewrite (bind_ok _ _ _ _ _ Hfull) in H.
  apply bind_inv in H as (n & s2 & Hn & H).
  unfold PersonaAnalyzer.get_page_count in Hn. injection Hn as <- <-.
  apply bind_inv in H as (pages & s3 & Hpages & H).
  apply bind_inv in H as (raw & s4 & _ & H).
  apply bind_inv in H as (enriched & s5 & _ & H).
  rewrite mret_unfold in H. injection H as <- _.
  cbn [full_text page_texts]. split; [reflexivity|].
  intros k. apply page_loop_keys in Hpages.
  rewrite <- elem_of_dom, dom_list_to_map_L, elem_of_list_to_set.
  change (fmap fst pages) with (map fst pages). rewrite Hpages.
  rewrite list_elem_of_In, in_map_iff. split.
  - intros (x & <- & Hx). apply list_elem_of_In, elem_of_seqZ in Hx. lia.
  - intros Hk. exists (k - 1)%Z. split; [lia|].
    apply list_elem_of_In, elem_of_seqZ. lia.
Qed.

Lemma X18_page_texts_are_one_based_witness :
  exists c,
    fst (PersonaAnalyzer._extract_detailed_content (MemoryLoader.processor Fixtures.files)
           "in/paper.pdf" (Some Fixtures.paper_pdf)) = Ok c /\
    forall k : Z, is_Some (page_texts c !! k) <-> (1 <= k <= 2)%Z.
Proof.
  destruct (PersonaAnalyzer._extract_detailed_content (MemoryLoader.processor Fixtures.files)
              "in/paper.pdf" (Some Fixtures.paper_pdf)) as [[c|e] st'] eqn:E;
    [|vm_compute in E; discriminate].
  exists c. split; [reflexivity|].
  apply (X18_page_texts_are_one_based (MemoryLoader.processor Fixtures.files)
           "in/paper.pdf" (Some Fixtures.paper_pdf) _ (Some Fixtures.paper_pdf) c st'
           eq_refl E).
Defined.

(** ** Exceptions *)

(** X19.  In the loop over the files, a file that loads but whose
    outline extraction or content extraction raises adds no document: the
    exception is caught and the list of documents is left as it was. *)
Theorem X19_failing_extraction_is_skipped {St} (P : PDFProcessor St)
    pdf_file documents st s1 :
  load_pdf P pdf_file (fst st) = (Ok true, s1) ->
  (forall e e1,
     StructureExtractor.extract_structure P pdf_file (snd st) = (Raise e, e1) ->
     PersonaAnalyzer.process_file P pdf_file documents st = (Ok documents, (s1, e1))) /\
  (forall structure e1 e s2,
     StructureExtractor.extract_structure P pdf_file (snd st) = (Ok structure, e1) ->
     PersonaAnalyzer._extract_detailed_content P pdf_file s1 = (Raise e, s2) ->
     PersonaAnalyzer.process_file P pdf_file documents st = (Ok documents, (s2, e1))).
Proof.
  intros Hload. split.
  - intros e e1 Hs. unfold PersonaAnalyzer.process_file, try_except.
    rewrite bind_unfold, own_unfold, Hload. cbn [fst snd negb].
    rewrite bind_unfold, of_extractor_unfold. cbn [fst snd]. rewrite Hs. reflexivity.
  - intros structure e1 e s2 Hs Hc. unfold PersonaAnalyzer.process_file, try_except.
    rewrite bind_unfold, own_unfold, Hload. cbn [fst snd negb].
    rewrite bind_unfold, of_extractor_unfold. cbn [fst snd]. rewrite Hs. cbn [fst snd].
    rewrite bind_unfold, own_unfold. cbn [fst snd]. rewrite Hc. reflexivity.
Qed.

Lemma X19_failing_extraction_is_skipped_witness :
  PersonaAnalyzer.process_file (MemoryLoader.processor Failures.files) "in/page0.pdf" []
    (None, None)
  = (Ok [], (Some Failures.page0_pdf, None)).
Proof.
  destruct (X19_failing_extraction_is_skipped (MemoryLoader.processor Failures.files)
              "in/page0.pdf" [] (None, None) (Some Failures.page0_pdf) eq_refl) as [_ H].
  eapply H; vm_compute; reflexivity.
Defined.

(** X20.  The document is appended before the processor is closed: when
    everything succeeds but [close] raises, the exception is caught and the
    document stays in the list. *)
Theorem X20_close_failure_keeps_document {St} (P : PDFProcessor St)
    pdf_file documents st s1 structure e1 c s2 e s3 :
  load_pdf P pdf_file (fst st) = (Ok true, s1) ->
  StructureExtractor.extract_structure P pdf_file (snd st) = (Ok structure, e1) ->
  PersonaAnalyzer._extract_detailed_content P pdf_file s1 = (Ok c, s2) ->
  close P s2 = (Raise e, s3) ->
  PersonaAnalyzer.process_file P pdf_file documents st
  = (Ok (documents ++ [Failures.document_of pdf_file structure c]), (s3, e1)).
Proof.
  intros Hload Hs Hc Hclose. unfold PersonaAnalyzer.process_file, try_except.
  rewrite bind_unfold, own_unfold, Hload. cbn [fst snd negb].
  rewrite bind_unfold, of_extractor_unfold. cbn [fst snd]. rewrite Hs. cbn [fst snd].
  rewrite bind_unfold, own_unfold. cbn [fst snd]. rewrite Hc. cbn [fst snd].
  rewrite bind_unfold, own_unfold. cbn [fst snd]. rewrite Hclose. reflexivity.
Qed.

Lemma X20_close_failure_keeps_document_witness :
  exists doc st',
    PersonaAnalyzer.process_file (Failures.fussy_processor Fixtures.files) "in/bare.pdf" []
      ((None, false), (None, false))
    = (Ok [doc], st') /\ filename doc = "bare.pdf".
Proof.
  eexists _, _. split.
  - eapply (X20_close_failure_keeps_document (Failures.fussy_processor Fixtures.files)
              "in/bare.pdf" [] ((None, false), (None, false))); vm_compute; reflexivity.
  - reflexivity.
Defined.
